(** * work_log/get_google_calendar.py: a shallow embedding

    The script obtains OAuth2 credentials (token file, refresh, or the
    interactive flow), issues one "list events" request against the calendar
    service and hands back the items of the response.  Everything the script
    touches outside of itself (file system, wall clock, standard output, the
    vendor SDK and the remote service) is made explicit here: the first three
    as fields of a [World] that is threaded through the calls, the SDK and the
    remote service as a record of deterministic oracles. *)

From Stdlib Require Import ZArith String Ascii List Lia.
From stdpp Require Import base option gmap strings list pretty.

Open Scope Z_scope.
Open Scope string_scope.
Open Scope list_scope.

(** ** Time stamps *)

(** [datetime.datetime]; a [datetime.date] is the first three fields. *)
Record datetime := mk_datetime {
  year : Z; month : Z; day : Z;
  hour : Z; minute : Z; second : Z; microsecond : Z
}.

Record date := mk_date { d_year : Z; d_month : Z; d_day : Z }.

(** [datetime.date()] *)
Definition date_of (t : datetime) : date :=
  {| d_year := year t; d_month := month t; d_day := day t |}.

(** The ranges the constructor of [datetime.datetime] enforces. *)
Definition datetime_ok (t : datetime) : Prop :=
  1 <= year t <= 9999 /\ 1 <= month t <= 12 /\ 1 <= day t <= 31 /\
  0 <= hour t <= 23 /\ 0 <= minute t <= 59 /\ 0 <= second t <= 59 /\
  0 <= microsecond t <= 999999.

Definition digit (n : Z) : ascii := ascii_of_nat (48 + Z.to_nat (n mod 10)).

(** Decimal rendering on exactly [w] digits, zero padded. *)
Fixpoint zpad (w : nat) (n : Z) : string :=
  match w with
  | O => ""
  | S w' => zpad w' (n / 10) +:+ String (digit n) ""
  end.

(** One [strftime] directive.  [%Y] is rendered on four digits; C libraries
    disagree on the padding of years below 1000 (glibc leaves them
    unpadded), so statements that depend on the width of the year assume
    [1000 <= year]. *)
Definition directive (c : ascii) (t : datetime) : string :=
  if Ascii.eqb c "Y" then zpad 4 (year t)
  else if Ascii.eqb c "m" then zpad 2 (month t)
  else if Ascii.eqb c "d" then zpad 2 (day t)
  else if Ascii.eqb c "H" then zpad 2 (hour t)
  else if Ascii.eqb c "M" then zpad 2 (minute t)
  else if Ascii.eqb c "S" then zpad 2 (second t)
  else if Ascii.eqb c "%" then "%"
  else String "%" (String c "").

(** [datetime.strftime(fmt)] for the directives above. *)
Fixpoint strftime (fmt : string) (t : datetime) : string :=
  match fmt with
  | EmptyString => ""
  | String a rest =>
      if Ascii.eqb a "%" then
        match rest with
        | EmptyString => "%"
        | String c rest' => directive c t +:+ strftime rest' t
        end
      else String a (strftime rest t)
  end.

(** [date.strftime(fmt)]: the time-of-day directives see midnight. *)
Definition date_strftime (fmt : string) (d : date) : string :=
  strftime fmt (mk_datetime (d_year d) (d_month d) (d_day d) 0 0 0 0).

(** Line 16. *)
Definition DATETIME_FMT : string := "%Y-%m-%dT%H:%M:%SZ".

(** Line 19. *)
Definition SCOPES : list string :=
  ["https://www.googleapis.com/auth/calendar.readonly"].

(** Order on time stamps: code-point order on the strings, as Python's
    [<=] on [str]; on the fixed-width [DATETIME_FMT] it is the
    chronological order. *)
Definition time_le (a b : string) : Prop := String.leb a b = true.

(** ** Python values *)

(** The JSON-shaped values the remote service answers with, and [None]. *)
#[warnings="-register-all"]
Inductive pyval :=
| PyNone
| PyBool (b : bool)
| PyInt (z : Z)
| PyStr (s : string)
| PyList (l : list pyval)
| PyDict (d : list (string * pyval)).

(** Truth value of an object, as [not x] tests it. *)
Definition truthy (v : pyval) : bool :=
  match v with
  | PyNone => false
  | PyBool b => b
  | PyInt z => negb (Z.eqb z 0)
  | PyStr s => negb (String.eqb s "")
  | PyList l => match l with [] => false | _ => true end
  | PyDict d => match d with [] => false | _ => true end
  end.

(** Truth value of an optional [str] argument: [None] and [""] are false. *)
Definition str_truthy (s : option string) : bool :=
  match s with
  | None => false
  | Some s => negb (String.eqb s "")
  end.

(** ** Exceptions *)

Inductive exn :=
| HttpError (text : string)          (* googleapiclient.errors.HttpError *)
| RefreshError (text : string)       (* google.auth.exceptions.RefreshError *)
| TransportError (text : string)     (* connection level failure *)
| ValueError (text : string)
| FileNotFoundError (path : string)
| FlowError (text : string).         (* the consent step did not complete *)

Inductive completion (A : Type) :=
| Returns (a : A)
| Raises (e : exn).
Arguments Returns {A} a.
Arguments Raises {A} e.

(** ** The SDK objects the script handles *)

(** [google.oauth2.credentials.Credentials] as the script observes it.
    [expired] is the SDK's expiry check at the time of the call. *)
Record Credentials := {
  token : option string;
  refresh_token : option string;
  expired : bool
}.

(** The SDK's [valid] property: a token is present and it is not expired. *)
Definition valid (c : Credentials) : bool :=
  match token c with Some _ => negb (expired c) | None => false end.

(** [InstalledAppFlow], made from the client-secret file. *)
Record Flow := { client_config : string; flow_scopes : list string }.

(** The object [build] returns. *)
Record Service := {
  service_name : string; service_version : string;
  service_credentials : Credentials
}.

(** The keyword arguments of [service.events().list(...)]. *)
Record ListRequest := {
  calendarId : string;
  timeMin : string;
  timeMax : string;
  maxResults : Z;
  singleEvents : bool;
  orderBy : string
}.

(** What the SDK and the remote service do, as deterministic oracles. *)
Record SDK := {
  (* Credentials.from_authorized_user_info on the content of a token file *)
  parse_authorized_user : string -> list string -> completion Credentials;
  (* Credentials.to_json *)
  to_json : Credentials -> string;
  (* Credentials.refresh(Request()): the credentials afterwards *)
  refresh_outcome : Credentials -> completion Credentials;
  (* InstalledAppFlow.from_client_config on the content of the secret file *)
  parse_client_secrets : string -> list string -> completion Flow;
  (* InstalledAppFlow.run_local_server(port) *)
  local_server_outcome : Flow -> Z -> completion Credentials;
  (* googleapiclient.discovery.build: the error it raises, if any *)
  build_error : string -> string -> Credentials -> option exn;
  (* HttpRequest.execute() of an events().list(...) request *)
  execute_outcome : Service -> ListRequest -> completion (gmap string pyval)
}.

(** ** The world *)

(** What the script does to its environment, in order. *)
Inductive action :=
| ReadFile (path : string)
| WriteFile (path content : string)
| RefreshToken
| LocalServerFlow
| ListEvents (req : ListRequest).

(** Files by path, the local wall clock, the lines printed so far and the
    actions performed so far (oldest first).  One call sees one instant of
    the clock; writing a file always succeeds. *)
Record World := {
  fs : gmap string string;
  clock : datetime;
  stdout : list string;
  trace : list action
}.

Definition set_fs (f : gmap string string) (w : World) : World :=
  {| fs := f; clock := clock w; stdout := stdout w; trace := trace w |}.

Definition log (a : action) (w : World) : World :=
  {| fs := fs w; clock := clock w; stdout := stdout w; trace := trace w ++ [a] |}.

Definition emit (line : string) (w : World) : World :=
  {| fs := fs w; clock := clock w; stdout := stdout w ++ [line]; trace := trace w |}.

#[global] Instance ListRequest_eq_dec : EqDecision ListRequest.
Proof. solve_decision. Defined.

#[global] Instance action_eq_dec : EqDecision action.
Proof. solve_decision. Defined.

(** The list requests among the actions of a trace, in order. *)
Definition as_request (a : action) : option ListRequest :=
  match a with ListEvents req => Some req | _ => None end.

Definition requests (t : list action) : list ListRequest := omap as_request t.

(** How often an action occurs in a trace. *)
Definition occurrences (a : action) (t : list action) : nat :=
  length (filter (eq a) t).

(** ** The monad of the script: state and exceptions *)

Definition M (A : Type) : Type := World -> completion A * World.

Definition ret {A} (a : A) : M A := fun w => (Returns a, w).

Definition raise {A} (e : exn) : M A := fun w => (Raises e, w).

Definition bind {A B} (m : M A) (k : A -> M B) : M B :=
  fun w =>
    match m w with
    | (Returns a, w') => k a w'
    | (Raises e, w') => (Raises e, w')
    end.

Definition lift {A} (c : completion A) : M A := fun w => (c, w).

Definition perform (a : action) : M unit := fun w => (Returns tt, log a w).

(** [try: body  except HttpError as error: handler(error)] *)
Definition try_except_HttpError {A} (body : M A) (handler : string -> M A) : M A :=
  fun w =>
    match body w with
    | (Raises (HttpError text), w') => handler text w'
    | r => r
    end.

Declare Scope py_scope.
Delimit Scope py_scope with py.
Notation "x <- m ;; k" := (bind m (fun x => k))
  (at level 100, m at next level, right associativity) : py_scope.
Notation "m ;;; k" := (bind m (fun _ => k))
  (at level 100, right associativity) : py_scope.
Open Scope py_scope.

(** ** The script *)

Section Script.

(** Lines 21 and 23: both paths come from the process environment. *)
Variables CREDENTIALS_PATH TOKEN_PATH : string.
Variable sdk : SDK.

(** *** Library calls *)

(** [os.path.exists] *)
Definition os_path_exists (path : string) : M bool :=
  fun w => (Returns (bool_decide (is_Some (fs w !! path))), w).

Definition read_file (path : string) : M string :=
  fun w =>
    match fs w !! path with
    | Some content => (Returns content, log (ReadFile path) w)
    | None => (Raises (FileNotFoundError path), w)
    end.

(** [with open(path, "w") as f: f.write(content)] *)
Definition write_file (path content : string) : M unit :=
  fun w => (Returns tt, log (WriteFile path content) (set_fs (<[path := content]> (fs w)) w)).

Definition print (line : string) : M unit :=
  fun w => (Returns tt, emit line w).

(** [datetime.datetime.now()] and [datetime.datetime.today()] *)
Definition datetime_now : M datetime :=
  fun w => (Returns (clock w), w).

Definition from_authorized_user_file (path : string) (scopes : list string) : M Credentials :=
  content <- read_file path ;;
  lift (parse_authorized_user sdk content scopes).

(** [creds.refresh(Request())]; the mutated object is the result. *)
Definition refresh (creds : Credentials) : M Credentials :=
  perform RefreshToken ;;;
  lift (refresh_outcome sdk creds).

Definition from_client_secrets_file (path : string) (scopes : list string) : M Flow :=
  content <- read_file path ;;
  lift (parse_client_secrets sdk content scopes).

(** [flow.run_local_server(port)].  Before it waits for the redirect the
    library writes its own authorization prompt to standard output; that
    line is not modelled: [stdout] holds the lines of the script's own
    [print] calls. *)
Definition run_local_server (flow : Flow) (port : Z) : M Credentials :=
  perform LocalServerFlow ;;;
  lift (local_server_outcome sdk flow port).

Definition build (name version : string) (creds : Credentials) : M Service :=
  match build_error sdk name version creds with
  | Some e => raise e
  | None => ret {| service_name := name; service_version := version;
                   service_credentials := creds |}
  end.

(** [service.events().list(...).execute()], [req] holding the keyword arguments *)
Definition events_list_execute (service : Service) (req : ListRequest)
  : M (gmap string pyval) :=
  perform (ListEvents req) ;;;
  lift (execute_outcome sdk service req).

(** [d.get(key, default)] *)
Definition dict_get (d : gmap string pyval) (key : string) (dflt : pyval) : pyval :=
  default dflt (d !! key).

(** *** get_events *)

(** Lines 51-56. *)
Definition load_token : M (option Credentials) :=
  present <- os_path_exists TOKEN_PATH ;;
  if present then
    creds <- from_authorized_user_file TOKEN_PATH SCOPES ;;
    ret (Some creds)
  else ret None.

(** Lines 62-65. *)
Definition interactive_login : M Credentials :=
  flow <- from_client_secrets_file CREDENTIALS_PATH SCOPES ;;
  run_local_server flow 0.

(** Lines 59-65: [creds and creds.expired and creds.refresh_token] picks
    the refresh, anything else the interactive flow. *)
Definition renew (creds : option Credentials) : M Credentials :=
  match creds with
  | Some c =>
      if expired c && str_truthy (refresh_token c) then refresh c
      else interactive_login
  | None => interactive_login
  end.

(** Lines 66-68. *)
Definition save (creds : Credentials) : M Credentials :=
  write_file TOKEN_PATH (to_json sdk creds) ;;;
  ret creds.

(** Lines 58-68: [not creds or not creds.valid] guards the renewal. *)
Definition ensure_valid (creds : option Credentials) : M Credentials :=
  match creds with
  | Some c =>
      if valid c then ret c
      else creds' <- renew (Some c) ;; save creds'
  | None => creds' <- renew None ;; save creds'
  end.

(** Lines 51-68: what the specification calls the credential manager. *)
Definition credentials : M Credentials :=
  creds <- load_token ;;
  ensure_valid creds.

(** Lines 70-71. *)
Definition resolve_start (start_time : option string) : M string :=
  match start_time with
  | Some s =>
      if str_truthy start_time then ret s
      else now <- datetime_now ;; ret (strftime DATETIME_FMT now)
  | None => now <- datetime_now ;; ret (strftime DATETIME_FMT now)
  end.

(** Lines 72-73. *)
Definition resolve_end (end_time : option string) : string :=
  match end_time with
  | Some s => if str_truthy end_time then s else "2038-12-31T23:59:59Z"
  | None => "2038-12-31T23:59:59Z"
  end.

Definition list_request (calendar_id start_time end_time : string) (max_results : Z)
  : ListRequest :=
  {| calendarId := calendar_id; timeMin := start_time; timeMax := end_time;
     maxResults := max_results; singleEvents := true; orderBy := "startTime" |}.

(** Lines 75-99.  Line 75 binds [events] to the empty list before the
    [try]; the body rebinds it and the handler never reads it: the handler
    prints and falls off the end of the function, so the call evaluates to
    [None]. *)
Definition query (creds : Credentials) (calendar_id start_time end_time : string)
    (max_results : Z) : M pyval :=
  try_except_HttpError
    (service <- build "calendar" "v3" creds ;;
     print "Getting the upcoming 10 events" ;;;
     events_result <-
       events_list_execute service
         (list_request calendar_id start_time end_time max_results) ;;
     let events := dict_get events_result "items" (PyList []) in
     (if negb (truthy events) then print "No upcoming events found." else ret tt) ;;;
     ret events)
    (fun error => print ("An error occurred: " +:+ error) ;;; ret PyNone).

(** Lines 30-99. *)
Definition get_events (calendar_id : string) (start_time end_time : option string)
    (max_results : Z) : M pyval :=
  creds <- credentials ;;
  start_time <- resolve_start start_time ;;
  let end_time := resolve_end end_time in
  query creds calendar_id start_time end_time max_results.

(** *** get_todays_events, lines 102-123 *)
Definition get_todays_events (calendar_id : string) (max_results : Z) : M pyval :=
  today <- datetime_now ;;
  let start_time := date_strftime DATETIME_FMT (date_of today) in
  let end_time :=
    strftime DATETIME_FMT
      (mk_datetime (year today) (month today) (day today) 23 59 59 0) in
  print end_time ;;;
  get_events calendar_id (Some start_time) (Some end_time) max_results.

End Script.

(** ** The program around the two functions *)

(** What ends the program besides the exceptions of the two functions. *)
Inductive fault :=
| Uncaught (e : exn)
| TypeError
| KeyError (key : string)
| AttributeError.

(** Lines 21-27: the names the module binds when it is loaded. *)
Record Globals := {
  CREDENTIALS_PATH : string;
  TOKEN_PATH : string;
  CALENDAR_IDS : pyval
}.

(** A key of a [dict]; the keys of a Python dict are distinct, and on a
    list that repeats a key the first entry counts. *)
Fixpoint dict_lookup (d : list (string * pyval)) (key : string) : option pyval :=
  match d with
  | [] => None
  | (k, v) :: rest => if String.eqb k key then Some v else dict_lookup rest key
  end.

(** [v[key]] for a [str] key: only a dict can be subscripted this way. *)
Definition subscript (v : pyval) (key : string) : fault + pyval :=
  match v with
  | PyDict d =>
      match dict_lookup d key with
      | Some x => inr x
      | None => inl (KeyError key)
      end
  | _ => inl TypeError
  end.

(** [iter(v)]: a list yields its elements, a dict its keys, a string its
    characters; nothing else here is iterable. *)
Definition py_iter (v : pyval) : option (list pyval) :=
  match v with
  | PyList l => Some l
  | PyDict d => Some (map (fun kv => PyStr kv.1) d)
  | PyStr s => Some (map (fun a => PyStr (String a "")) (list_ascii_of_string s))
  | _ => None
  end.

Section Program.

Variable sdk : SDK.

(** [str] of a list or of a dict, which the program leaves to Python. *)
Variable repr : pyval -> string.

(** [json.loads] *)
Variable json_loads : string -> completion pyval.

(** [os.environ] *)
Variable environ : gmap string string.

(** [str(v)], as [print] applies it to each argument. *)
Definition py_str (v : pyval) : string :=
  match v with
  | PyNone => "None"
  | PyBool b => if b then "True" else "False"
  | PyInt z => pretty z
  | PyStr s => s
  | PyList _ | PyDict _ => repr v
  end.

(** Lines 131-132 (and 138-139): the line printed for one event.  The
    attribute [get] is looked up on [event["start"]] before its arguments
    are evaluated; [event["summary"]] is evaluated last. *)
Definition event_line (event : pyval) : fault + string :=
  match subscript event "start" with
  | inl f => inl f
  | inr (PyDict start_dict) =>
      let dflt := default PyNone (dict_lookup start_dict "date") in
      let start := default dflt (dict_lookup start_dict "dateTime") in
      match subscript event "summary" with
      | inl f => inl f
      | inr summary => inr (py_str start +:+ " " +:+ py_str summary)
      end
  | inr _ => inl AttributeError
  end.

(** The body of the loop over the events already drawn from the iterator. *)
Fixpoint print_lines (events : list pyval) (w : World) : option fault * World :=
  match events with
  | [] => (None, w)
  | event :: rest =>
      match event_line event with
      | inl f => (Some f, w)
      | inr line => print_lines rest (emit line w)
      end
  end.

(** Lines 130-132 (and 137-139): [for event in events: ...]. *)
Definition print_events (events : pyval) (w : World) : option fault * World :=
  match py_iter events with
  | None => (Some TypeError, w)
  | Some l => print_lines l w
  end.

(** Lines 126-139, with the two paths the module has bound. *)
Definition main_block (cp tp : string) (w : World) : option fault * World :=
  match get_events cp tp sdk "primary" None None 10 w with
  | (Raises e, w1) => (Some (Uncaught e), w1)
  | (Returns events, w1) =>
      match print_events events (emit "upcoming primary events:" w1) with
      | (Some f, w2) => (Some f, w2)
      | (None, w2) =>
          match get_todays_events cp tp sdk "primary" 10 w2 with
          | (Raises e, w3) => (Some (Uncaught e), w3)
          | (Returns events, w3) =>
              print_events events (emit "upcoming today's primary events:" w3)
          end
      end
  end.

(** Lines 21-27: three names are taken from the environment, then the file
    the third one names is read and parsed. *)
Definition module_level (w : World) : (fault + Globals) * World :=
  match environ !! "GOOGLE_OAUTH2_CREDENTIALS" with
  | None => (inl (KeyError "GOOGLE_OAUTH2_CREDENTIALS"), w)
  | Some credentials_path =>
      match environ !! "GOOGLE_CALENDAR_TOKEN" with
      | None => (inl (KeyError "GOOGLE_CALENDAR_TOKEN"), w)
      | Some token_path =>
          match environ !! "GOOGLE_CALENDAR_ID" with
          | None => (inl (KeyError "GOOGLE_CALENDAR_ID"), w)
          | Some ids_path =>
              match read_file ids_path w with
              | (Raises e, w') => (inl (Uncaught e), w')
              | (Returns content, w') =>
                  match json_loads content with
                  | Raises e => (inl (Uncaught e), w')
                  | Returns ids =>
                      (inr {| CREDENTIALS_PATH := credentials_path;
                              TOKEN_PATH := token_path;
                              CALENDAR_IDS := ids |}, w')
                  end
              end
          end
      end
  end.

(** The file run as a program: the module level, then lines 126-139. *)
Definition script (w : World) : option fault * World :=
  match module_level w with
  | (inl f, w') => (Some f, w')
  | (inr globals, w') =>
      main_block (CREDENTIALS_PATH globals) (TOKEN_PATH globals) w'
  end.

End Program.

(** ** Vocabulary of the statements *)

Section Summaries.

Variables cp tp : string.
Variable sdk : SDK.

(** The world once the renewed credentials [c'] have been written back
    (lines 66-68). *)
Definition persisted (c' : Credentials) (w : World) : World :=
  log (WriteFile tp (to_json sdk c')) (set_fs (<[tp := to_json sdk c']> (fs w)) w).

(** Lines 62-68 run from [w]: the interactive flow, then the write. *)
Definition login_and_save (w : World) : completion Credentials * World :=
  match fs w !! cp with
  | None => (Raises (FileNotFoundError cp), w)
  | Some secret =>
      match parse_client_secrets sdk secret SCOPES with
      | Raises e => (Raises e, log (ReadFile cp) w)
      | Returns flow =>
          let w' := log LocalServerFlow (log (ReadFile cp) w) in
          match local_server_outcome sdk flow 0 with
          | Returns c' => (Returns c', persisted c' w')
          | Raises e => (Raises e, w')
          end
      end
  end.

End Summaries.

(** The lower bound lines 70-71 settle on when the clock shows [now]. *)
Definition resolved_start (start_time : option string) (now : datetime) : string :=
  match start_time with
  | Some s => if String.eqb s "" then strftime DATETIME_FMT now else s
  | None => strftime DATETIME_FMT now
  end.

(** The list requests issued between two worlds of one run. *)
Definition issued (w w' : World) : list ListRequest :=
  drop (length (requests (trace w))) (requests (trace w')).

(** A date the way the statements write it, [YYYY-MM-DD]. *)
Definition iso_date (d : date) : string :=
  zpad 4 (d_year d) +:+ "-" +:+ zpad 2 (d_month d) +:+ "-" +:+ zpad 2 (d_day d).

(** Chronological comparison down to the second. *)
Definition datetime_compare (a b : datetime) : comparison :=
  match Z.compare (year a) (year b) with
  | Eq =>
      match Z.compare (month a) (month b) with
      | Eq =>
          match Z.compare (day a) (day b) with
          | Eq =>
              match Z.compare (hour a) (hour b) with
              | Eq =>
                  match Z.compare (minute a) (minute b) with
                  | Eq => Z.compare (second a) (second b)
                  | o => o
                  end
              | o => o
              end
          | o => o
          end
      | o => o
      end
  | o => o
  end.

(** ** Concrete scenarios *)

Module Scenario.

Definition token_path : string := "/home/user/token.json".
Definition secret_path : string := "/home/user/credentials.json".

Definition fresh : Credentials :=
  {| token := Some "ya29.fresh"; refresh_token := Some "1//refresh"; expired := false |}.

Definition stale : Credentials :=
  {| token := Some "ya29.stale"; refresh_token := Some "1//refresh"; expired := true |}.

(** A token file holds one of two texts. *)
Definition parse (content : string) (scopes : list string) : completion Credentials :=
  if String.eqb content "fresh" then Returns fresh
  else if String.eqb content "stale" then Returns stale
  else Raises (ValueError "not an authorized user file").

Definition render (c : Credentials) : string :=
  if valid c then "fresh" else "stale".

Definition meeting : pyval :=
  PyDict [("summary", PyStr "stand-up");
          ("start", PyDict [("dateTime", PyStr "2024-06-15T09:00:00Z")])].

Definition answer_items : gmap string pyval :=
  {[ "kind" := PyStr "calendar#events"; "items" := PyList [meeting] ]}.

Definition answer_bare : gmap string pyval :=
  {[ "kind" := PyStr "calendar#events" ]}.

(** An SDK whose refresh and remote answers are fixed by the arguments. *)
Definition sdk_with (refreshed : completion Credentials)
    (answer : completion (gmap string pyval)) : SDK :=
  {| parse_authorized_user := parse;
     to_json := render;
     refresh_outcome := fun _ => refreshed;
     parse_client_secrets := fun content scopes =>
       Returns {| client_config := content; flow_scopes := scopes |};
     local_server_outcome := fun _ _ => Returns fresh;
     build_error := fun _ _ _ => None;
     execute_outcome := fun _ _ => answer |}.

Definition noon : datetime := mk_datetime 2024 6 15 12 30 45 0.

Definition world_with (token_file : option string) : World :=
  {| fs := match token_file with
           | Some content => {[ token_path := content; secret_path := "{}" ]}
           | None => {[ secret_path := "{}" ]}
           end;
     clock := noon; stdout := []; trace := [] |}.

End Scenario.

(** ** A concrete program run *)

Module Fixture.

Definition environ : gmap string string :=
  {[ "GOOGLE_OAUTH2_CREDENTIALS" := Scenario.secret_path;
     "GOOGLE_CALENDAR_TOKEN" := Scenario.token_path;
     "GOOGLE_CALENDAR_ID" := "/home/user/calendars.json" ]}.

(** The registry file holds one of two texts. *)
Definition json_loads (content : string) : completion pyval :=
  if String.eqb content "{}" then Returns (PyDict [])
  else if String.eqb content "{work}"
       then Returns (PyDict [("work", PyStr "work@group.calendar.google.com")])
  else Raises (ValueError "Expecting value").

Definition repr (v : pyval) : string := "<object>".

Definition holiday : pyval :=
  PyDict [("summary", PyStr "public holiday");
          ("start", PyDict [("date", PyStr "2024-06-17")])].

Definition untitled : pyval :=
  PyDict [("start", PyDict [("dateTime", PyStr "2024-06-18T10:00:00Z")])].

Definition answer_two : gmap string pyval :=
  {[ "items" := PyList [Scenario.meeting; holiday] ]}.

(** A token file without access token: neither valid nor expired. *)
Definition blank : Credentials :=
  {| token := None; refresh_token := Some "1//refresh"; expired := false |}.

(** An SDK fixed by what it finds in a token file, how the consent step
    ends, whether the service can be built and what the remote service
    answers. *)
Definition sdk_of (found : completion Credentials) (login : completion Credentials)
    (build_err : option exn) (answer : completion (gmap string pyval)) : SDK :=
  {| parse_authorized_user := fun _ _ => found;
     to_json := Scenario.render;
     refresh_outcome := fun _ => Returns Scenario.fresh;
     parse_client_secrets := fun content scopes =>
       Returns {| client_config := content; flow_scopes := scopes |};
     local_server_outcome := fun _ _ => login;
     build_error := fun _ _ _ => build_err;
     execute_outcome := fun _ _ => answer |}.

Definition world (registry : option string) : World :=
  {| fs := match registry with
           | Some content =>
               {[ Scenario.token_path := "fresh"; Scenario.secret_path := "{}";
                  "/home/user/calendars.json" := content ]}
           | None =>
               {[ Scenario.token_path := "fresh"; Scenario.secret_path := "{}" ]}
           end;
     clock := Scenario.noon; stdout := []; trace := [] |}.

End Fixture.

(** * Properties *)

(** ** Lexicographic order on rendered time stamps *)

Lemma length_append_string a b :
  String.length (a +:+ b) = (String.length a + String.length b)%nat.
Proof. induction a as [|x a IH]; simpl; [done|]. by rewrite IH. Qed.

Lemma zpad_length w n : String.length (zpad w n) = w.
Proof.
  revert n. induction w as [|w IH]; intros n; simpl; [done|].
  rewrite length_append_string, IH. simpl. lia.
Qed.

Lemma compare_append_prefix a b s t :
  String.length a = String.length b ->
  String.compare (a +:+ s) (b +:+ t) =
    match String.compare a b with
    | Eq => String.compare s t
    | c => c
    end.
Proof.
  revert b. induction a as [|x a IH]; intros [|y b] Hlen; simpl in *; try done.
  destruct (Ascii.compare x y); try done. apply IH. lia.
Qed.

Lemma compare_refl s : String.compare s s = Eq.
Proof.
  induction s as [|x s IH]; simpl; [done|].
  assert (Ascii.compare x x = Eq) as ->; [|done].
  unfold Ascii.compare. apply N.compare_refl.
Qed.

Lemma compare_common_prefix p s t :
  String.compare (p +:+ s) (p +:+ t) = String.compare s t.
Proof. rewrite compare_append_prefix by done. by rewrite compare_refl. Qed.

(** ** The script, case by case *)

Ltac unfold_calls :=
  unfold interactive_login, from_client_secrets_file, run_local_server,
    from_authorized_user_file, refresh, save, write_file, read_file,
    os_path_exists, build, events_list_execute, print, datetime_now,
    try_except_HttpError, perform, lift, bind, ret, raise in *.

Section Equations.

Variables cp tp : string.
Variable sdk : SDK.
Implicit Types (w : World) (c : Credentials) (creds : option Credentials).

Lemma interactive_login_eq w :
  interactive_login cp sdk w =
    match fs w !! cp with
    | None => (Raises (FileNotFoundError cp), w)
    | Some secret =>
        match parse_client_secrets sdk secret SCOPES with
        | Raises e => (Raises e, log (ReadFile cp) w)
        | Returns flow =>
            (local_server_outcome sdk flow 0,
             log LocalServerFlow (log (ReadFile cp) w))
        end
    end.
Proof.
  unfold_calls. destruct (fs w !! cp) as [secret|]; [|done].
  by destruct (parse_client_secrets sdk secret SCOPES).
Qed.

Lemma load_token_eq w :
  load_token tp sdk w =
    match fs w !! tp with
    | None => (Returns None, w)
    | Some content =>
        (match parse_authorized_user sdk content SCOPES with
         | Returns c => Returns (Some c)
         | Raises e => Raises e
         end, log (ReadFile tp) w)
    end.
Proof.
  unfold load_token. unfold_calls.
  case_bool_decide as Hfile.
  - destruct Hfile as [content ->].
    by destruct (parse_authorized_user sdk content SCOPES).
  - destruct (fs w !! tp); [|done]. destruct Hfile; eauto.
Qed.

Lemma save_after (m : M Credentials) w :
  (creds' <- m ;; save tp sdk creds') w =
    match m w with
    | (Returns c', w') => (Returns c', persisted tp sdk c' w')
    | (Raises e, w') => (Raises e, w')
    end.
Proof. unfold_calls. by destruct (m w) as [[c'|e] w']. Qed.

Lemma refresh_eq c w :
  refresh sdk c w = (refresh_outcome sdk c, log RefreshToken w).
Proof. unfold_calls. by destruct (refresh_outcome sdk c). Qed.

Lemma resolve_start_eq st w :
  resolve_start st w = (Returns (resolved_start st (clock w)), w).
Proof.
  unfold resolve_start, resolved_start. destruct st as [s|]; simpl; [|done].
  by destruct (String.eqb s "").
Qed.

Lemma get_events_eq cid st et mr w :
  get_events cp tp sdk cid st et mr w =
    match credentials cp tp sdk w with
    | (Returns c, w') =>
        query sdk c cid (resolved_start st (clock w')) (resolve_end et) mr w'
    | (Raises e, w') => (Raises e, w')
    end.
Proof.
  unfold get_events, bind at 1.
  destruct (credentials cp tp sdk w) as [[c|e] w']; [|done].
  unfold bind. by rewrite resolve_start_eq.
Qed.

Lemma query_eq c cid s e mr w :
  query sdk c cid s e mr w =
    match build_error sdk "calendar" "v3" c with
    | Some (HttpError text) =>
        (Returns PyNone, emit ("An error occurred: " +:+ text) w)
    | Some err => (Raises err, w)
    | None =>
        let req := list_request cid s e mr in
        let w' := log (ListEvents req) (emit "Getting the upcoming 10 events" w) in
        match execute_outcome sdk
                {| service_name := "calendar"; service_version := "v3";
                   service_credentials := c |} req with
        | Returns answer =>
            let events := dict_get answer "items" (PyList []) in
            (Returns events,
             if truthy events then w' else emit "No upcoming events found." w')
        | Raises (HttpError text) =>
            (Returns PyNone, emit ("An error occurred: " +:+ text) w')
        | Raises err => (Raises err, w')
        end
    end.
Proof.
  unfold query. unfold_calls.
  destruct (build_error sdk "calendar" "v3" c) as [[]|]; simpl; try done.
  destruct (execute_outcome sdk _ _) as [answer|[]]; simpl; try done.
  by destruct (truthy (dict_get answer "items" (PyList []))).
Qed.

End Equations.

(** ** The credential manager (lines 51-68) *)

Section Credential_manager.

Variables cp tp : string.
Variable sdk : SDK.
Implicit Types (w : World) (c : Credentials).

Lemma login_and_save_eq w :
  (creds' <- interactive_login cp sdk ;; save tp sdk creds') w = login_and_save cp tp sdk w.
Proof.
  rewrite save_after, interactive_login_eq. unfold login_and_save.
  destruct (fs w !! cp) as [secret|]; [|done].
  destruct (parse_client_secrets sdk secret SCOPES) as [flow|]; [|done].
  simpl. by destruct (local_server_outcome sdk flow 0).
Qed.

Lemma credentials_eq w :
  credentials cp tp sdk w =
    match fs w !! tp with
    | None => login_and_save cp tp sdk w
    | Some content =>
        let w1 := log (ReadFile tp) w in
        match parse_authorized_user sdk content SCOPES with
        | Raises e => (Raises e, w1)
        | Returns c =>
            if valid c then (Returns c, w1)
            else if expired c && str_truthy (refresh_token c) then
              match refresh_outcome sdk c with
              | Returns c' => (Returns c', persisted tp sdk c' (log RefreshToken w1))
              | Raises e => (Raises e, log RefreshToken w1)
              end
            else login_and_save cp tp sdk w1
        end
    end.
Proof.
  unfold credentials, bind at 1. rewrite load_token_eq.
  destruct (fs w !! tp) as [content|]; simpl.
  - destruct (parse_authorized_user sdk content SCOPES) as [c|]; [|done].
    simpl. destruct (valid c); [done|].
    destruct (expired c && str_truthy (refresh_token c)).
    + rewrite save_after, refresh_eq. by destruct (refresh_outcome sdk c).
    + apply login_and_save_eq.
  - apply login_and_save_eq.
Qed.

(** The credential manager never touches the clock or the output. *)
Lemma login_and_save_frame w r w' :
  login_and_save cp tp sdk w = (r, w') -> clock w' = clock w /\ stdout w' = stdout w.
Proof.
  unfold login_and_save. cbv zeta. intros H.
  repeat case_match; simplify_eq; done.
Qed.

Lemma credentials_frame w r w' :
  credentials cp tp sdk w = (r, w') -> clock w' = clock w /\ stdout w' = stdout w.
Proof.
  rewrite credentials_eq. cbv zeta. intros H.
  repeat case_match; simplify_eq; try done;
    match goal with
    | H : login_and_save _ _ _ _ = _ |- _ => by apply login_and_save_frame in H
    end.
Qed.

End Credential_manager.

(** ** Bookkeeping on traces *)

Lemma occurrences_app a t t' :
  occurrences a (t ++ t') = (occurrences a t + occurrences a t')%nat.
Proof. unfold occurrences. by rewrite filter_app, length_app. Qed.

Lemma occurrences_cons a b t :
  occurrences a (b :: t) =
    ((if decide (a = b) then 1 else 0) + occurrences a t)%nat.
Proof.
  unfold occurrences. rewrite filter_cons.
  destruct (decide (a = b)); done.
Qed.

Lemma occurrences_nil a : occurrences a [] = 0%nat.
Proof. done. Qed.

Lemma occurrences_absent a t : a ∉ t -> occurrences a t = 0%nat.
Proof.
  intros Hno. unfold occurrences. apply length_zero_iff_nil.
  apply elem_of_nil_inv. intros b [<- Hin]%list_elem_of_filter. done.
Qed.

Lemma requests_app t t' : requests (t ++ t') = requests t ++ requests t'.
Proof. apply omap_app. Qed.

(** Membership in a trace that ends in a tail [rest] of which [Hrest] says
    what it cannot hold. *)
Ltac in_trace Hrest :=
  rewrite ?elem_of_app, ?elem_of_cons, ?elem_of_nil;
  intuition (simplify_eq; eauto; try (exfalso; eapply Hrest; eassumption)).

Ltac count_trace :=
  repeat (rewrite ?occurrences_app, ?occurrences_cons, ?occurrences_nil;
          try case_decide); simplify_eq; try done; try lia.

(** ** The query (lines 75-99) *)

Section Query.

Variable sdk : SDK.

(** What a query leaves behind: the files and the clock as they were, and
    at most one list request, the one built from its arguments. *)
Lemma query_effect c cid s e mr w r w' :
  query sdk c cid s e mr w = (r, w') ->
  fs w' = fs w /\ clock w' = clock w /\
  (trace w' = trace w \/
   trace w' = trace w ++ [ListEvents (list_request cid s e mr)]).
Proof.
  rewrite query_eq. cbv zeta. intros H.
  repeat case_match; simplify_eq; simpl; auto.
Qed.

Lemma query_suffix c cid s e mr w r w' :
  query sdk c cid s e mr w = (r, w') ->
  exists rest, trace w' = trace w ++ rest /\
    forall a, a ∈ rest -> a = ListEvents (list_request cid s e mr).
Proof.
  intros H. apply query_effect in H as (_ & _ & [H|H]).
  - exists []. rewrite app_nil_r. split; [done|]. by intros a ?%elem_of_nil.
  - eexists. split; [done|]. by intros a ->%list_elem_of_singleton.
Qed.

End Query.

(** ** The token file *)

Section Token_file.

Variables cp tp : string.
Variable sdk : SDK.
Implicit Types (w : World) (c : Credentials).

(** After the credential manager, the call only adds list requests and
    leaves the files alone. *)
Lemma get_events_after_credentials cid st et mr w :
  let w1 := (credentials cp tp sdk w).2 in
  let w' := (get_events cp tp sdk cid st et mr w).2 in
  fs w' = fs w1 /\
  exists rest, trace w' = trace w1 ++ rest /\
    forall a, a ∈ rest -> exists req, a = ListEvents req.
Proof.
  cbv zeta. rewrite get_events_eq.
  destruct (credentials cp tp sdk w) as [[c|e] w1]; simpl.
  - match goal with |- context [query ?s ?a ?b ?x ?y ?z ?v] =>
      destruct (query s a b x y z v) as [r w2] eqn:Q end.
    pose proof (query_effect _ _ _ _ _ _ _ _ _ Q) as (Hfs & _ & _).
    apply query_suffix in Q as (rest & Htrace & Hrest). simpl.
    split; [done|]. exists rest. split; [done|]. eauto.
  - split; [done|]. exists []. rewrite app_nil_r. split; [done|].
    by intros a ?%elem_of_nil.
Qed.

(** C5: when the token file exists and holds an expired token with a
    refresh token that the service accepts, the credential manager
    refreshes it and writes the refreshed token to the token path; the
    interactive flow is not run, neither then nor in the rest of the
    call. *)
Theorem expired_token_is_refreshed_and_persisted cid st et mr w content c c' :
  fs w !! tp = Some content ->
  parse_authorized_user sdk content SCOPES = Returns c ->
  expired c = true ->
  str_truthy (refresh_token c) = true ->
  refresh_outcome sdk c = Returns c' ->
  let w' := (get_events cp tp sdk cid st et mr w).2 in
  (credentials cp tp sdk w).1 = Returns c' /\
  fs w' !! tp = Some (to_json sdk c') /\
  (exists rest,
      trace w' =
        trace w ++ [ReadFile tp; RefreshToken; WriteFile tp (to_json sdk c')] ++ rest /\
      LocalServerFlow ∉ rest) /\
  occurrences LocalServerFlow (trace w') = occurrences LocalServerFlow (trace w).
Proof.
  intros Hfile Hparse Hexp Hrt Hrefresh w'. subst w'.
  assert (valid c = false) as Hvalid.
  { unfold valid. rewrite Hexp. by destruct (token c). }
  rewrite get_events_eq, credentials_eq, Hfile. cbv zeta.
  rewrite Hparse, Hvalid, Hexp, Hrt, Hrefresh. simpl.
  split; [done|].
  match goal with |- context [query ?s ?a ?b ?x ?y ?z ?v] =>
    destruct (query s a b x y z v) as [r w2] eqn:Q end.
  pose proof (query_effect _ _ _ _ _ _ _ _ _ Q) as (Hfs & _ & _).
  apply query_suffix in Q as (rest & Htrace & Hrest). simpl in *.
  rewrite Hfs, Htrace. split; [by rewrite lookup_insert_eq|].
  assert (LocalServerFlow ∉ rest) as Hno.
  { intros Hin. by apply Hrest in Hin. }
  split.
  - exists rest. split; [|done]. by rewrite <- !app_assoc.
  - apply occurrences_absent in Hno. count_trace.
Qed.

(** C6, as amended: with no token file (the client-secret file loading and
    the consent step completing) the interactive flow is run exactly once
    and the token it yields is written to the token path; when a refresh
    is attempted and fails, its error reaches the caller, no interactive
    flow is run and the files are left as they were. *)
Theorem login_once_without_token_file_and_refresh_failure_raises cid st et mr w :
  let out := get_events cp tp sdk cid st et mr w in
  (forall secret flow c',
      fs w !! tp = None ->
      fs w !! cp = Some secret ->
      parse_client_secrets sdk secret SCOPES = Returns flow ->
      local_server_outcome sdk flow 0 = Returns c' ->
      fs out.2 !! tp = Some (to_json sdk c') /\
      (exists rest,
          trace out.2 =
            trace w ++ [ReadFile cp; LocalServerFlow; WriteFile tp (to_json sdk c')]
                    ++ rest /\
          LocalServerFlow ∉ rest) /\
      occurrences LocalServerFlow (trace out.2) =
        S (occurrences LocalServerFlow (trace w))) /\
  (forall content c e,
      fs w !! tp = Some content ->
      parse_authorized_user sdk content SCOPES = Returns c ->
      expired c = true ->
      str_truthy (refresh_token c) = true ->
      refresh_outcome sdk c = Raises e ->
      out.1 = Raises e /\
      fs out.2 = fs w /\
      trace out.2 = trace w ++ [ReadFile tp; RefreshToken] /\
      occurrences LocalServerFlow (trace out.2) =
        occurrences LocalServerFlow (trace w)).
Proof.
  cbv zeta. split.
  - intros secret flow c' Hfile Hsecret Hflow Hlogin.
    destruct (get_events_after_credentials cid st et mr w)
      as (Hfs & rest & Htrace & Hrest).
    rewrite Hfs, Htrace. clear Hfs Htrace.
    rewrite credentials_eq, Hfile. unfold login_and_save.
    rewrite Hsecret, Hflow. cbv zeta. rewrite Hlogin. simpl.
    assert (LocalServerFlow ∉ rest) as Hno.
    { intros Hin. apply Hrest in Hin as [req Hin]. done. }
    split; [by rewrite lookup_insert_eq|]. split.
    + exists rest. split; [|done]. by rewrite <- !app_assoc.
    + apply occurrences_absent in Hno. count_trace.
  - intros content c e Hfile Hparse Hexp Hrt Hrefresh.
    assert (valid c = false) as Hvalid.
    { unfold valid. rewrite Hexp. by destruct (token c). }
    rewrite get_events_eq, credentials_eq, Hfile. cbv zeta.
    rewrite Hparse, Hvalid, Hexp, Hrt, Hrefresh. simpl.
    split; [done|]. split; [done|]. split.
    + by rewrite <- app_assoc.
    + count_trace.
Qed.

(** C7: the token file is written only in a call in which a token was
    refreshed or newly obtained, and then with that token; a call that
    loads a persisted token that is already valid writes no file and
    leaves the files as they were. *)
Theorem token_file_written_only_after_renewal cid st et mr w :
  let w' := (get_events cp tp sdk cid st et mr w).2 in
  exists delta, trace w' = trace w ++ delta /\
    ((fs w' = fs w /\ forall p x, WriteFile p x ∉ delta) \/
     (exists c',
         fs w' = <[tp := to_json sdk c']> (fs w) /\
         (forall p x, WriteFile p x ∈ delta -> p = tp /\ x = to_json sdk c') /\
         ((RefreshToken ∈ delta /\ exists c, refresh_outcome sdk c = Returns c') \/
          (LocalServerFlow ∈ delta /\
           exists flow, local_server_outcome sdk flow 0 = Returns c')))) /\
    (forall content c,
        fs w !! tp = Some content ->
        parse_authorized_user sdk content SCOPES = Returns c ->
        valid c = true ->
        fs w' = fs w /\ forall p x, WriteFile p x ∉ delta).
Proof.
  cbv zeta.
  destruct (get_events_after_credentials cid st et mr w)
    as (Hfs & rest & Htrace & Hrest).
  rewrite Hfs, Htrace. clear Hfs Htrace.
  assert (forall p x, WriteFile p x ∉ rest) as Hno.
  { intros p x Hin. apply Hrest in Hin as [req Hin]. done. }
  rewrite credentials_eq. unfold login_and_save, persisted. cbv zeta.
  repeat case_match; simpl; rewrite <- ?app_assoc; simpl;
    eexists; (split; [reflexivity|]); split.
  all: try (intros content' c0 ? ? ?; simplify_eq; try congruence).
  all: try (left; split; [done|]).
  all: try (split; [done|]).
  all: try (intros p x; in_trace Hno).
  all: right; eexists; (split; [done|]); split;
    [intros p x; in_trace Hno|]; in_trace Hno.
Qed.

(** C9, as amended: every call of [get_events] that finds the token file
    reads the credential bundle from it, once (the client-secret file
    being another file); nothing is kept from one query to the next. *)
Theorem token_file_read_by_every_query cid st et mr w content :
  fs w !! tp = Some content ->
  tp <> cp ->
  let w' := (get_events cp tp sdk cid st et mr w).2 in
  occurrences (ReadFile tp) (trace w') = S (occurrences (ReadFile tp) (trace w)).
Proof.
  intros Hfile Hpaths. cbv zeta.
  destruct (get_events_after_credentials cid st et mr w)
    as (_ & rest & Htrace & Hrest).
  rewrite Htrace. clear Htrace.
  assert (occurrences (ReadFile tp) rest = 0%nat) as Hno.
  { apply occurrences_absent. intros Hin. apply Hrest in Hin as [req Hin]. done. }
  rewrite credentials_eq, Hfile. unfold login_and_save, persisted. cbv zeta.
  repeat case_match; simpl; count_trace.
Qed.

End Token_file.

(** ** Requests and results *)

Lemma issued_app w w' new :
  requests (trace w') = requests (trace w) ++ new -> issued w w' = new.
Proof. unfold issued. intros ->. apply drop_app_length. Qed.

Section Queries.

Variables cp tp : string.
Variable sdk : SDK.
Implicit Types (w : World) (c : Credentials).

(** The credential manager issues no list request. *)
Lemma credentials_requests w :
  requests (trace (credentials cp tp sdk w).2) = requests (trace w).
Proof.
  rewrite credentials_eq. unfold login_and_save, persisted. cbv zeta.
  repeat case_match; simpl; rewrite ?requests_app; simpl;
    by rewrite ?app_nil_r.
Qed.

(** A call issues at most one list request, and only the one made of its
    calendar id, its resolved window and its cap. *)
Lemma get_events_issued cid st et mr w :
  let w' := (get_events cp tp sdk cid st et mr w).2 in
  issued w w' = [] \/
  issued w w' =
    [list_request cid (resolved_start st (clock w)) (resolve_end et) mr].
Proof.
  cbv zeta. rewrite get_events_eq.
  pose proof (credentials_requests w) as Hreq.
  destruct (credentials cp tp sdk w) as [[c|e] w1] eqn:Hc; simpl in *.
  - apply credentials_frame in Hc as [-> _].
    match goal with |- context [query ?s ?a ?b ?x ?y ?z ?v] =>
      destruct (query s a b x y z v) as [r w2] eqn:Q end.
    apply query_effect in Q as (_ & _ & [Ht|Ht]); simpl.
    + left. apply issued_app. by rewrite Ht, Hreq, app_nil_r.
    + right. apply issued_app. by rewrite Ht, requests_app, Hreq.
  - left. apply issued_app. by rewrite Hreq, app_nil_r.
Qed.

(** The call once the credentials are there, the service is built and the
    remote service has answered. *)
Lemma get_events_answered cid st et mr w c w1 answer :
  credentials cp tp sdk w = (Returns c, w1) ->
  build_error sdk "calendar" "v3" c = None ->
  execute_outcome sdk
    {| service_name := "calendar"; service_version := "v3";
       service_credentials := c |}
    (list_request cid (resolved_start st (clock w)) (resolve_end et) mr)
    = Returns answer ->
  let out := get_events cp tp sdk cid st et mr w in
  out.1 = Returns (dict_get answer "items" (PyList [])) /\
  issued w out.2 =
    [list_request cid (resolved_start st (clock w)) (resolve_end et) mr].
Proof.
  intros Hc Hbuild Hexec. cbv zeta.
  pose proof (credentials_requests w) as Hreq.
  rewrite get_events_eq, Hc in *. simpl in Hreq.
  apply credentials_frame in Hc as [-> _].
  rewrite query_eq, Hbuild. cbv zeta. rewrite Hexec. simpl.
  split; [done|]. apply issued_app.
  destruct (truthy _); simpl; by rewrite requests_app, Hreq.
Qed.

End Queries.

Section Query_claims.

Variables cp tp : string.
Variable sdk : SDK.
Implicit Types (w : World) (c : Credentials).

(** Once the service is built the list request goes out, whatever the
    remote service then does. *)
Lemma get_events_built cid st et mr w c w1 :
  credentials cp tp sdk w = (Returns c, w1) ->
  build_error sdk "calendar" "v3" c = None ->
  issued w (get_events cp tp sdk cid st et mr w).2 =
    [list_request cid (resolved_start st (clock w)) (resolve_end et) mr].
Proof.
  intros Hc Hbuild.
  pose proof (credentials_requests cp tp sdk w) as Hreq.
  rewrite get_events_eq, Hc in *. simpl in Hreq.
  apply credentials_frame in Hc as [-> _].
  rewrite query_eq, Hbuild. cbv zeta. apply issued_app.
  repeat case_match; simpl; by rewrite requests_app, Hreq.
Qed.

(** An [HttpError] of the list call is printed and the call evaluates to
    [None]: control leaves the handler at the end of the function body. *)
Lemma http_error_is_printed_and_None_returned cid st et mr w c w1 text :
  credentials cp tp sdk w = (Returns c, w1) ->
  build_error sdk "calendar" "v3" c = None ->
  execute_outcome sdk
    {| service_name := "calendar"; service_version := "v3";
       service_credentials := c |}
    (list_request cid (resolved_start st (clock w)) (resolve_end et) mr)
    = Raises (HttpError text) ->
  let out := get_events cp tp sdk cid st et mr w in
  out.1 = Returns PyNone /\
  stdout out.2 =
    stdout w ++ ["Getting the upcoming 10 events"; "An error occurred: " +:+ text].
Proof.
  intros Hc Hbuild Hexec. cbv zeta. rewrite get_events_eq, Hc.
  apply credentials_frame in Hc as [-> <-].
  rewrite query_eq, Hbuild. cbv zeta. rewrite Hexec. simpl.
  by rewrite <- app_assoc.
Qed.

(** Any other exception of the list call leaves [get_events] as it is:
    the handler names [HttpError] only. *)
Lemma other_errors_propagate cid st et mr w c w1 e :
  credentials cp tp sdk w = (Returns c, w1) ->
  build_error sdk "calendar" "v3" c = None ->
  execute_outcome sdk
    {| service_name := "calendar"; service_version := "v3";
       service_credentials := c |}
    (list_request cid (resolved_start st (clock w)) (resolve_end et) mr)
    = Raises e ->
  (forall text, e <> HttpError text) ->
  (get_events cp tp sdk cid st et mr w).1 = Raises e.
Proof.
  intros Hc Hbuild Hexec Hother. rewrite get_events_eq, Hc.
  apply credentials_frame in Hc as [-> _].
  rewrite query_eq, Hbuild. cbv zeta. rewrite Hexec.
  destruct e; try done. by destruct (Hother text).
Qed.

(** C2: called without [start_time] and without [end_time], [get_events]
    queries the window from the clock's reading, rendered with
    [DATETIME_FMT], to the fixed string 2038-12-31T23:59:59Z: no other
    window is requested, and this one is requested as soon as the
    credentials are there and the service is built. *)
Theorem default_window_is_now_to_sentinel cid mr w :
  let out := get_events cp tp sdk cid None None mr w in
  (forall req, req ∈ issued w out.2 ->
     timeMin req = strftime DATETIME_FMT (clock w) /\
     timeMax req = "2038-12-31T23:59:59Z") /\
  (forall c w1,
      credentials cp tp sdk w = (Returns c, w1) ->
      build_error sdk "calendar" "v3" c = None ->
      exists req, issued w out.2 = [req] /\
        timeMin req = strftime DATETIME_FMT (clock w) /\
        timeMax req = "2038-12-31T23:59:59Z").
Proof.
  cbv zeta. split.
  - intros req Hin.
    destruct (get_events_issued cp tp sdk cid None None mr w) as [H|H];
      rewrite H in Hin.
    + by apply elem_of_nil in Hin.
    + by apply list_elem_of_singleton in Hin as ->.
  - intros c w1 Hc Hbuild. eexists. split.
    + by apply (get_events_built cid None None mr w c w1).
    + done.
Qed.

(** C4: when the credentials are there, the service is built and the
    remote service answers, [get_events] has issued exactly one list
    request, carrying the given calendar id, the resolved window as
    timeMin and timeMax (a given, non-empty bound as it was given; else
    the rendered clock for the start and 2038-12-31T23:59:59Z for the
    end), the given cap, singleEvents set and the order startTime, and it
    returns the items of the answer as they came. *)
Theorem successful_call_one_request_items_unmodified
    cid st et mr w c w1 answer :
  let req :=
    {| calendarId := cid;
       timeMin :=
         match st with
         | Some s => if String.eqb s "" then strftime DATETIME_FMT (clock w) else s
         | None => strftime DATETIME_FMT (clock w)
         end;
       timeMax :=
         match et with
         | Some e => if String.eqb e "" then "2038-12-31T23:59:59Z" else e
         | None => "2038-12-31T23:59:59Z"
         end;
       maxResults := mr; singleEvents := true; orderBy := "startTime" |} in
  credentials cp tp sdk w = (Returns c, w1) ->
  build_error sdk "calendar" "v3" c = None ->
  execute_outcome sdk
    {| service_name := "calendar"; service_version := "v3";
       service_credentials := c |} req = Returns answer ->
  let out := get_events cp tp sdk cid st et mr w in
  issued w out.2 = [req] /\
  forall items, answer !! "items" = Some items -> out.1 = Returns items.
Proof.
  intros req Hc Hbuild Hexec out.
  assert (list_request cid (resolved_start st (clock w)) (resolve_end et) mr = req)
    as Hreq_eq.
  { subst req. unfold list_request, resolved_start, resolve_end, str_truthy.
    destruct et as [e|]; [|done]. by destruct (String.eqb e ""). }
  rewrite <- Hreq_eq in Hexec.
  destruct (get_events_answered cp tp sdk cid st et mr w c w1 answer Hc Hbuild Hexec)
    as [Hres Hreq].
  rewrite Hreq_eq in Hreq.
  split; [done|]. intros items Hitems. subst out. rewrite Hres.
  unfold dict_get. by rewrite Hitems.
Qed.

(** C10: when the remote service answers without an "items" entry,
    [get_events] returns the empty list: it neither raises nor returns
    [None]. *)
Theorem answer_without_items_gives_empty_list cid st et mr w c w1 answer :
  credentials cp tp sdk w = (Returns c, w1) ->
  build_error sdk "calendar" "v3" c = None ->
  execute_outcome sdk
    {| service_name := "calendar"; service_version := "v3";
       service_credentials := c |}
    (list_request cid (resolved_start st (clock w)) (resolve_end et) mr)
    = Returns answer ->
  answer !! "items" = None ->
  (get_events cp tp sdk cid st et mr w).1 = Returns (PyList []).
Proof.
  intros Hc Hbuild Hexec Hitems.
  destruct (get_events_answered cp tp sdk cid st et mr w c w1 answer Hc Hbuild Hexec)
    as [-> _].
  unfold dict_get. by rewrite Hitems.
Qed.

End Query_claims.

(** ** Rendered time stamps *)

Lemma append_cons_string x a b : String x a +:+ b = String x (a +:+ b).
Proof. reflexivity. Qed.

Lemma append_assoc_string a b c : (a +:+ b) +:+ c = a +:+ (b +:+ c).
Proof.
  induction a as [|x a IH]; [done|].
  by rewrite !append_cons_string, IH.
Qed.

(** [DATETIME_FMT] spelled out. *)
Lemma strftime_DATETIME_FMT t :
  strftime DATETIME_FMT t =
    iso_date (date_of t) +:+ "T" +:+ zpad 2 (hour t) +:+ ":" +:+
    zpad 2 (minute t) +:+ ":" +:+ zpad 2 (second t) +:+ "Z".
Proof.
  unfold iso_date, date_of. simpl d_year. simpl d_month. simpl d_day.
  rewrite !append_assoc_string. reflexivity.
Qed.

Lemma digit_compare a b :
  Ascii.compare (digit a) (digit b) = Z.compare (a mod 10) (b mod 10).
Proof.
  unfold digit.
  assert (0 <= a mod 10 < 10) as Ha by (apply Z.mod_pos_bound; lia).
  assert (0 <= b mod 10 < 10) as Hb by (apply Z.mod_pos_bound; lia).
  generalize dependent (b mod 10). generalize dependent (a mod 10).
  intros x Hx y Hy.
  assert (x = 0 \/ x = 1 \/ x = 2 \/ x = 3 \/ x = 4 \/
          x = 5 \/ x = 6 \/ x = 7 \/ x = 8 \/ x = 9) as Hxs by lia.
  assert (y = 0 \/ y = 1 \/ y = 2 \/ y = 3 \/ y = 4 \/
          y = 5 \/ y = 6 \/ y = 7 \/ y = 8 \/ y = 9) as Hys by lia.
  clear Hx Hy.
  repeat (destruct Hxs as [->|Hxs]); try subst x;
    repeat (destruct Hys as [->|Hys]); try subst y; reflexivity.
Qed.

Lemma zpad_succ w n : zpad (S w) n = zpad w (n / 10) +:+ String (digit n) "".
Proof. reflexivity. Qed.

Lemma compare_singleton x y :
  String.compare (String x "") (String y "") = Ascii.compare x y.
Proof. simpl. by destruct (Ascii.compare x y). Qed.

(** On a fixed width the order of the renderings is the order of the
    numbers. *)
Lemma zpad_compare w a b :
  0 <= a < 10 ^ Z.of_nat w -> 0 <= b < 10 ^ Z.of_nat w ->
  String.compare (zpad w a) (zpad w b) = Z.compare a b.
Proof.
  revert a b. induction w as [|w IH]; intros a b Ha Hb.
  - simpl in *. assert (a = 0) as -> by lia. by assert (b = 0) as -> by lia.
  - rewrite Nat2Z.inj_succ, Z.pow_succ_r in Ha, Hb by lia.
    assert (0 <= a / 10 < 10 ^ Z.of_nat w) as Ha'
      by (split; [apply Z.div_pos | apply Z.div_lt_upper_bound]; lia).
    assert (0 <= b / 10 < 10 ^ Z.of_nat w) as Hb'
      by (split; [apply Z.div_pos | apply Z.div_lt_upper_bound]; lia).
    rewrite !zpad_succ, compare_append_prefix by (by rewrite !zpad_length).
    rewrite IH, compare_singleton, digit_compare by done.
    pose proof (Z.div_mod a 10 ltac:(lia)) as Hda.
    pose proof (Z.div_mod b 10 ltac:(lia)) as Hdb.
    pose proof (Z.mod_pos_bound a 10 ltac:(lia)) as Hma.
    pose proof (Z.mod_pos_bound b 10 ltac:(lia)) as Hmb.
    destruct (Z.compare_spec (a / 10) (b / 10)) as [Hq|Hq|Hq];
      destruct (Z.compare_spec (a mod 10) (b mod 10)) as [Hr|Hr|Hr];
      symmetry;
      first [ apply Z.compare_eq_iff | apply Z.compare_lt_iff
            | apply Z.compare_gt_iff ];
      clear IH Ha Hb Ha' Hb'; lia.
Qed.

Lemma zpad_compare_2 a b :
  0 <= a <= 99 -> 0 <= b <= 99 ->
  String.compare (zpad 2 a) (zpad 2 b) = Z.compare a b.
Proof.
  intros Ha Hb. apply zpad_compare; change (10 ^ Z.of_nat 2) with 100; lia.
Qed.

Lemma zpad_compare_4 a b :
  0 <= a <= 9999 -> 0 <= b <= 9999 ->
  String.compare (zpad 4 a) (zpad 4 b) = Z.compare a b.
Proof.
  intros Ha Hb. apply zpad_compare; change (10 ^ Z.of_nat 4) with 10000; lia.
Qed.

(** On time stamps rendered with [DATETIME_FMT] the code-point order is the
    chronological order. *)
Lemma strftime_compare a b :
  datetime_ok a -> datetime_ok b ->
  String.compare (strftime DATETIME_FMT a) (strftime DATETIME_FMT b) =
    datetime_compare a b.
Proof.
  intros (Hy & Hm & Hd & HH & HM & HS & _) (Hy' & Hm' & Hd' & HH' & HM' & HS' & _).
  rewrite !strftime_DATETIME_FMT. unfold iso_date, date_of, datetime_compare.
  simpl d_year. simpl d_month. simpl d_day.
  rewrite !append_assoc_string.
  rewrite compare_append_prefix, zpad_compare_4 by (by rewrite ?zpad_length; lia).
  destruct (Z.compare (year a) (year b)); try reflexivity.
  do 4 (rewrite (compare_common_prefix (String _ "")),
          compare_append_prefix, zpad_compare_2
          by (by rewrite ?zpad_length; lia);
        match goal with
        | |- match ?o with _ => _ end = match ?o with _ => _ end =>
            destruct o; try reflexivity
        end).
  rewrite (compare_common_prefix ":"), compare_append_prefix, zpad_compare_2
    by (by rewrite ?zpad_length; lia).
  rewrite compare_refl. by destruct (Z.compare (second a) (second b)).
Qed.

Lemma date_strftime_midnight d :
  date_strftime DATETIME_FMT d = iso_date d +:+ "T00:00:00Z".
Proof.
  unfold date_strftime. rewrite strftime_DATETIME_FMT. by destruct d.
Qed.

Lemma strftime_end_of_day y m d :
  strftime DATETIME_FMT (mk_datetime y m d 23 59 59 0) =
    iso_date (mk_date y m d) +:+ "T23:59:59Z".
Proof. by rewrite strftime_DATETIME_FMT. Qed.



(** ** The query window *)

Section Window.

Variables cp tp : string.
Variable sdk : SDK.
Implicit Types (w : World).

(** Lines 119-123 with the clock read. *)
Lemma get_todays_events_eq cid mr w :
  get_todays_events cp tp sdk cid mr w =
    let today := clock w in
    let end_time :=
      strftime DATETIME_FMT
        (mk_datetime (year today) (month today) (day today) 23 59 59 0) in
    get_events cp tp sdk cid
      (Some (date_strftime DATETIME_FMT (date_of today))) (Some end_time) mr
      (emit end_time w).
Proof. reflexivity. Qed.

(** C3: on a clock showing the date D, [get_todays_events] takes D
    followed by T00:00:00Z as start and D followed by T23:59:59Z as end,
    prints the end, and returns what [get_events] returns for these two
    bounds, the given calendar id and the given cap. *)
Theorem todays_events_delegates_with_day_bounds cid mr w :
  let D := iso_date (date_of (clock w)) in
  get_todays_events cp tp sdk cid mr w =
    get_events cp tp sdk cid
      (Some (D +:+ "T00:00:00Z")) (Some (D +:+ "T23:59:59Z")) mr
      (emit (D +:+ "T23:59:59Z") w).
Proof.
  cbv zeta. rewrite get_todays_events_eq. cbv zeta.
  by rewrite date_strftime_midnight, strftime_end_of_day.
Qed.



End Window.

(** * The statements at concrete inputs *)

Section Runs.

Import Scenario.

Let run_events (sdk : SDK) := get_events secret_path token_path sdk.
Let run_today (sdk : SDK) := get_todays_events secret_path token_path sdk.

(** C1: the remote service rejects the list request with an [HttpError]
    (an unknown calendar id).  [get_events] prints the error and does not
    raise, but it returns [None], not an empty list. *)
Theorem http_error_makes_get_events_return_None :
  let sdk := sdk_with (Returns fresh) (Raises (HttpError "404 Not Found")) in
  let out := run_events sdk "no-such-calendar" None None 10 (world_with (Some "fresh")) in
  out.1 = Returns PyNone /\
  out.1 <> Returns (PyList []) /\
  stdout out.2 =
    ["Getting the upcoming 10 events"; "An error occurred: 404 Not Found"].
Proof. vm_compute. split; [done|]. split; [discriminate|done]. Qed.

(** An exception of another class is not caught at all. *)
Example transport_error_leaves_get_events :
  let sdk := sdk_with (Returns fresh) (Raises (TransportError "name resolution")) in
  (run_events sdk "primary" None None 10 (world_with (Some "fresh"))).1 =
    Raises (TransportError "name resolution").
Proof. reflexivity. Qed.

Lemma default_window_witness :
  let sdk := sdk_with (Returns fresh) (Returns answer_items) in
  let w := world_with (Some "fresh") in
  exists req,
    issued w (run_events sdk "primary" None None 10 w).2 = [req] /\
    timeMin req = "2024-06-15T12:30:45Z" /\
    timeMax req = "2038-12-31T23:59:59Z".
Proof.
  intros sdk w.
  destruct (default_window_is_now_to_sentinel secret_path token_path sdk
              "primary" 10 w) as [_ H].
  apply (H fresh (credentials secret_path token_path sdk w).2);
    vm_compute; reflexivity.
Defined.

Lemma todays_window_2024_06_15 :
  let sdk := sdk_with (Returns fresh) (Returns answer_items) in
  let w := world_with (Some "fresh") in
  run_today sdk "primary" 10 w =
    run_events sdk "primary"
      (Some "2024-06-15T00:00:00Z") (Some "2024-06-15T23:59:59Z") 10
      (emit "2024-06-15T23:59:59Z" w).
Proof.
  intros sdk w.
  apply (todays_events_delegates_with_day_bounds secret_path token_path sdk
           "primary" 10 w).
Defined.

Lemma successful_call_witness :
  let sdk := sdk_with (Returns fresh) (Returns answer_items) in
  let w := world_with (Some "fresh") in
  (let out :=
     run_events sdk "team"
       (Some "2024-06-15T00:00:00Z") (Some "2024-06-16T00:00:00Z") 25 w in
   issued w out.2 =
     [{| calendarId := "team"; timeMin := "2024-06-15T00:00:00Z";
         timeMax := "2024-06-16T00:00:00Z"; maxResults := 25;
         singleEvents := true; orderBy := "startTime" |}] /\
   out.1 = Returns (PyList [meeting])) /\
  (let out := run_events sdk "primary" None None 10 w in
   issued w out.2 =
     [{| calendarId := "primary"; timeMin := "2024-06-15T12:30:45Z";
         timeMax := "2038-12-31T23:59:59Z"; maxResults := 10;
         singleEvents := true; orderBy := "startTime" |}] /\
   out.1 = Returns (PyList [meeting])).
Proof.
  intros sdk w. split.
  - intros out.
    destruct (successful_call_one_request_items_unmodified
                secret_path token_path sdk
                "team" (Some "2024-06-15T00:00:00Z") (Some "2024-06-16T00:00:00Z")
                25 w fresh (credentials secret_path token_path sdk w).2
                answer_items)
      as [Hreq Hitems]; [vm_compute; reflexivity ..|].
    split; [exact Hreq|]. apply Hitems. vm_compute. reflexivity.
  - intros out.
    destruct (successful_call_one_request_items_unmodified
                secret_path token_path sdk "primary" None None 10 w
                fresh (credentials secret_path token_path sdk w).2 answer_items)
      as [Hreq Hitems]; [vm_compute; reflexivity ..|].
    split; [exact Hreq|]. apply Hitems. vm_compute. reflexivity.
Defined.

Lemma expired_token_witness :
  let sdk := sdk_with (Returns fresh) (Returns answer_items) in
  let w := world_with (Some "stale") in
  let w' := (run_events sdk "primary" None None 10 w).2 in
  fs w' !! token_path = Some "fresh" /\
  occurrences LocalServerFlow (trace w') = 0%nat.
Proof.
  intros sdk w w'.
  destruct (expired_token_is_refreshed_and_persisted secret_path token_path sdk
              "primary" None None 10 w "stale" stale fresh)
    as (_ & Hfile & _ & Hflows); [vm_compute; reflexivity ..|].
  split; [exact Hfile | exact Hflows].
Defined.

(** C6, as stated, fails: the token file holds an expired token, the
    refresh is refused, and no interactive flow is run; the error leaves
    [get_events] and the token file keeps its old content. *)
Lemma refused_refresh_runs_no_login :
  let sdk := sdk_with (Raises (RefreshError "invalid_grant")) (Returns answer_items) in
  let w := world_with (Some "stale") in
  let out := run_events sdk "primary" None None 10 w in
  refresh_outcome sdk stale = Raises (RefreshError "invalid_grant") /\
  out.1 = Raises (RefreshError "invalid_grant") /\
  occurrences LocalServerFlow (trace out.2) <> 1%nat /\
  fs out.2 !! token_path = Some "stale".
Proof. vm_compute. repeat split; done. Qed.

Lemma login_once_witness :
  (let sdk := sdk_with (Returns fresh) (Returns answer_items) in
   let w := world_with None in
   let out := run_events sdk "primary" None None 10 w in
   fs out.2 !! token_path = Some "fresh" /\
   occurrences LocalServerFlow (trace out.2) = 1%nat) /\
  (let sdk := sdk_with (Raises (RefreshError "invalid_grant")) (Returns answer_items) in
   let w := world_with (Some "stale") in
   let out := run_events sdk "primary" None None 10 w in
   out.1 = Raises (RefreshError "invalid_grant") /\
   trace out.2 = [ReadFile token_path; RefreshToken]).
Proof.
  split.
  - intros sdk w out.
    destruct (login_once_without_token_file_and_refresh_failure_raises
                secret_path token_path sdk "primary" None None 10 w) as [H _].
    destruct (H "{}" {| client_config := "{}"; flow_scopes := SCOPES |} fresh)
      as (Hfile & _ & Hflows); [vm_compute; reflexivity ..|].
    split; [exact Hfile | exact Hflows].
  - intros sdk w out.
    destruct (login_once_without_token_file_and_refresh_failure_raises
                secret_path token_path sdk "primary" None None 10 w) as [_ H].
    destruct (H "stale" stale (RefreshError "invalid_grant"))
      as (Hres & _ & Htrace & _); [vm_compute; reflexivity ..|].
    split; [exact Hres | exact Htrace].
Defined.

Lemma valid_token_witness :
  let sdk := sdk_with (Returns fresh) (Returns answer_items) in
  let w := world_with (Some "fresh") in
  fs (run_events sdk "primary" None None 10 w).2 = fs w.
Proof.
  intros sdk w.
  destruct (token_file_written_only_after_renewal secret_path token_path sdk
              "primary" None None 10 w) as (delta & _ & _ & H).
  destruct (H "fresh" fresh) as [Hfs _]; [vm_compute; reflexivity ..|].
  exact Hfs.
Defined.



(** C9, as stated, fails: the second query of a process reads the token
    file again. *)
Lemma second_query_reads_token_file_again :
  let sdk := sdk_with (Returns fresh) (Returns answer_items) in
  let w0 := world_with (Some "fresh") in
  let w1 := (run_events sdk "primary" None None 10 w0).2 in
  let w2 := (run_today sdk "primary" 10 w1).2 in
  occurrences (ReadFile token_path) (trace w1) = 1%nat /\
  occurrences (ReadFile token_path) (trace w2) = 2%nat.
Proof. vm_compute. split; reflexivity. Qed.

Lemma token_file_read_witness :
  let sdk := sdk_with (Returns fresh) (Returns answer_items) in
  let w := world_with (Some "fresh") in
  occurrences (ReadFile token_path)
    (trace (run_events sdk "primary" None None 10 w).2) = 1%nat.
Proof.
  intros sdk w.
  apply (token_file_read_by_every_query secret_path token_path sdk
           "primary" None None 10 w "fresh"); [vm_compute; reflexivity|].
  discriminate.
Defined.

Lemma answer_without_items_witness :
  let sdk := sdk_with (Returns fresh) (Returns answer_bare) in
  let w := world_with (Some "fresh") in
  (run_events sdk "primary" None None 10 w).1 = Returns (PyList []).
Proof.
  intros sdk w.
  apply (answer_without_items_gives_empty_list secret_path token_path sdk
           "primary" None None 10 w
           fresh (credentials secret_path token_path sdk w).2 answer_bare);
    vm_compute; reflexivity.
Defined.

End Runs.


(** * Further properties of the credential manager *)

Section Credential_paths.

Variables cp tp : string.
Variable sdk : SDK.
Implicit Types (w : World) (c : Credentials).

(** A query that never got its credentials: the call ends with the error of
    the credential manager, in the world the credential manager left. *)
Lemma get_events_without_credentials cid st et mr w e w1 :
  credentials cp tp sdk w = (Raises e, w1) ->
  get_events cp tp sdk cid st et mr w = (Raises e, w1).
Proof. intros Hc. by rewrite get_events_eq, Hc. Qed.

(** X1: a token file that the SDK cannot parse is fatal: the parse error
    reaches the caller, the file has been read once and stays as it is,
    and neither a refresh, nor the interactive flow, nor a list request
    takes place. *)
Theorem unparseable_token_file_is_fatal cid st et mr w content e :
  fs w !! tp = Some content ->
  parse_authorized_user sdk content SCOPES = Raises e ->
  let out := get_events cp tp sdk cid st et mr w in
  out.1 = Raises e /\
  fs out.2 = fs w /\
  trace out.2 = trace w ++ [ReadFile tp] /\
  stdout out.2 = stdout w.
Proof.
  intros Hfile Hparse. cbv zeta.
  rewrite (get_events_without_credentials cid st et mr w e (log (ReadFile tp) w)).
  - done.
  - rewrite credentials_eq, Hfile. cbv zeta. by rewrite Hparse.
Qed.

(** X2: a persisted token that is neither valid nor refreshable (not
    expired, or without a refresh token) sends the user through the
    interactive flow, once, and the token the flow yields replaces the
    content of the token file; no refresh is attempted. *)
Theorem unrefreshable_token_runs_login cid st et mr w content c secret flow c' :
  fs w !! tp = Some content ->
  parse_authorized_user sdk content SCOPES = Returns c ->
  valid c = false ->
  expired c && str_truthy (refresh_token c) = false ->
  fs w !! cp = Some secret ->
  parse_client_secrets sdk secret SCOPES = Returns flow ->
  local_server_outcome sdk flow 0 = Returns c' ->
  let out := get_events cp tp sdk cid st et mr w in
  (credentials cp tp sdk w).1 = Returns c' /\
  fs out.2 !! tp = Some (to_json sdk c') /\
  (exists rest,
      trace out.2 =
        trace w ++ [ReadFile tp; ReadFile cp; LocalServerFlow;
                    WriteFile tp (to_json sdk c')] ++ rest /\
      forall a, a ∈ rest -> exists req, a = ListEvents req).
Proof.
  intros Hfile Hparse Hvalid Hrefresh Hsecret Hflow Hlogin. cbv zeta.
  destruct (get_events_after_credentials cp tp sdk cid st et mr w)
    as (Hfs & rest & Htrace & Hrest).
  rewrite Hfs, Htrace. clear Hfs Htrace.
  rewrite credentials_eq, Hfile. cbv zeta.
  rewrite Hparse, Hvalid, Hrefresh. unfold login_and_save. simpl.
  rewrite Hsecret, Hflow. cbv zeta. rewrite Hlogin. simpl.
  split; [done|]. split; [by rewrite lookup_insert_eq|].
  exists rest. split; [|done]. by rewrite <- !app_assoc.
Qed.

(** X3: when a login is needed (no token file) and the client-secret file
    is missing too, the call raises [FileNotFoundError] for the
    client-secret path and leaves the world exactly as it found it. *)
Theorem missing_client_secret_is_fatal cid st et mr w :
  fs w !! tp = None ->
  fs w !! cp = None ->
  get_events cp tp sdk cid st et mr w = (Raises (FileNotFoundError cp), w).
Proof.
  intros Hfile Hsecret. apply get_events_without_credentials.
  rewrite credentials_eq, Hfile. unfold login_and_save. by rewrite Hsecret.
Qed.

(** X4: when the consent step of the interactive flow does not complete,
    its error reaches the caller; the flow has been run once, nothing is
    written, and no list request is issued. *)
Theorem failed_login_is_fatal cid st et mr w secret flow e :
  fs w !! tp = None ->
  fs w !! cp = Some secret ->
  parse_client_secrets sdk secret SCOPES = Returns flow ->
  local_server_outcome sdk flow 0 = Raises e ->
  let out := get_events cp tp sdk cid st et mr w in
  out.1 = Raises e /\
  fs out.2 = fs w /\
  trace out.2 = trace w ++ [ReadFile cp; LocalServerFlow].
Proof.
  intros Hfile Hsecret Hflow Hlogin. cbv zeta.
  rewrite (get_events_without_credentials cid st et mr w e
             (log LocalServerFlow (log (ReadFile cp) w))).
  - simpl. by rewrite <- app_assoc.
  - rewrite credentials_eq, Hfile. unfold login_and_save.
    rewrite Hsecret, Hflow. cbv zeta. by rewrite Hlogin.
Qed.

(** X5: whatever happens, the only file a call can change is the token
    file: every other path holds after the call what it held before. *)
Theorem other_files_are_untouched cid st et mr w p :
  p <> tp ->
  fs (get_events cp tp sdk cid st et mr w).2 !! p = fs w !! p.
Proof.
  intros Hp.
  destruct (get_events_after_credentials cp tp sdk cid st et mr w) as [-> _].
  rewrite credentials_eq. unfold login_and_save, persisted. cbv zeta.
  repeat case_match; simpl; by rewrite ?lookup_insert_ne.
Qed.

(** What the credential manager leaves in the token file when it hands
    out credentials: a text that parses to them, or their rendering. *)
Lemma credentials_token_file w c w1 :
  credentials cp tp sdk w = (Returns c, w1) ->
  exists content, fs w1 !! tp = Some content /\
    (parse_authorized_user sdk content SCOPES = Returns c \/
     content = to_json sdk c).
Proof.
  rewrite credentials_eq. unfold login_and_save, persisted. cbv zeta.
  intros H. repeat case_match; simplify_eq; simpl;
    try (eexists; split; [apply lookup_insert_eq|by right]).
  eexists. split; [done|by left].
Qed.

(** X6: once a call has obtained valid credentials, and the SDK reads back
    what it writes, the next call loads them from the token file and uses
    them as they are: it refreshes nothing, runs no interactive flow and
    writes no file. *)
Theorem next_call_reuses_the_token cid st et mr cid' st' et' mr' w c w1 :
  credentials cp tp sdk w = (Returns c, w1) ->
  valid c = true ->
  parse_authorized_user sdk (to_json sdk c) SCOPES = Returns c ->
  let w' := (get_events cp tp sdk cid st et mr w).2 in
  let w'' := (get_events cp tp sdk cid' st' et' mr' w').2 in
  credentials cp tp sdk w' = (Returns c, log (ReadFile tp) w') /\
  fs w'' = fs w' /\
  occurrences RefreshToken (trace w'') = occurrences RefreshToken (trace w') /\
  occurrences LocalServerFlow (trace w'') = occurrences LocalServerFlow (trace w') /\
  forall p x, occurrences (WriteFile p x) (trace w'') =
              occurrences (WriteFile p x) (trace w').
Proof.
  intros Hc Hvalid Hround. cbv zeta.
  set (w' := (get_events cp tp sdk cid st et mr w).2).
  assert (credentials cp tp sdk w' = (Returns c, log (ReadFile tp) w')) as Hc'.
  { destruct (get_events_after_credentials cp tp sdk cid st et mr w) as [Hfs _].
    fold w' in Hfs. rewrite Hc in Hfs. simpl in Hfs.
    apply credentials_token_file in Hc as (content & Hfile & Hcontent).
    rewrite credentials_eq, Hfs, Hfile. cbv zeta.
    assert (parse_authorized_user sdk content SCOPES = Returns c) as ->.
    { by destruct Hcontent as [?| ->]. }
    by rewrite Hvalid. }
  split; [done|].
  destruct (get_events_after_credentials cp tp sdk cid' st' et' mr' w')
    as (Hfs & rest & Htrace & Hrest).
  rewrite Hfs, Htrace, Hc'. simpl.
  split; [done|].
  assert (forall a, (forall req, a <> ListEvents req) -> occurrences a rest = 0%nat)
    as Hno.
  { intros a Ha. apply occurrences_absent. intros Hin.
    apply Hrest in Hin as [req ->]. by destruct (Ha req). }
  repeat split; intros; rewrite !occurrences_app, Hno by done; count_trace.
Qed.

End Credential_paths.

(** * Further properties of the query *)

Section Query_outcomes.

Variables cp tp : string.
Variable sdk : SDK.
Implicit Types (w : World) (c : Credentials).

(** X7: an [HttpError] raised while the service object is built is
    handled like one of the list call: it is printed and the call
    evaluates to [None]; no list request has gone out and the line
    announcing the query has not been printed. *)
Theorem http_error_of_build_is_swallowed cid st et mr w c w1 text :
  credentials cp tp sdk w = (Returns c, w1) ->
  build_error sdk "calendar" "v3" c = Some (HttpError text) ->
  let out := get_events cp tp sdk cid st et mr w in
  out.1 = Returns PyNone /\
  issued w out.2 = [] /\
  stdout out.2 = stdout w ++ ["An error occurred: " +:+ text].
Proof.
  intros Hc Hbuild. cbv zeta.
  pose proof (credentials_requests cp tp sdk w) as Hreq.
  rewrite get_events_eq, Hc in *. simpl in Hreq.
  apply credentials_frame in Hc as [_ <-].
  rewrite query_eq, Hbuild. simpl.
  split; [done|]. split; [|done].
  apply issued_app. simpl. by rewrite Hreq, app_nil_r.
Qed.

(** X8: an exception of the list call that is not an [HttpError] is not
    handled: it reaches the caller, after the request has gone out and the
    announcing line has been printed, and nothing about the error is
    printed. *)
Theorem other_error_of_list_call_is_not_handled cid st et mr w c w1 e :
  credentials cp tp sdk w = (Returns c, w1) ->
  build_error sdk "calendar" "v3" c = None ->
  execute_outcome sdk
    {| service_name := "calendar"; service_version := "v3";
       service_credentials := c |}
    (list_request cid (resolved_start st (clock w)) (resolve_end et) mr)
    = Raises e ->
  (forall text, e <> HttpError text) ->
  let out := get_events cp tp sdk cid st et mr w in
  out.1 = Raises e /\
  issued w out.2 =
    [list_request cid (resolved_start st (clock w)) (resolve_end et) mr] /\
  stdout out.2 = stdout w ++ ["Getting the upcoming 10 events"].
Proof.
  intros Hc Hbuild Hexec Hother. cbv zeta.
  pose proof (credentials_requests cp tp sdk w) as Hreq.
  rewrite get_events_eq, Hc in *. simpl in Hreq.
  apply credentials_frame in Hc as [-> <-].
  rewrite query_eq, Hbuild. cbv zeta. rewrite Hexec.
  destruct e; try (by destruct (Hother text)); simpl;
    (split; [done|]); (split; [|done]);
    apply issued_app; simpl; by rewrite requests_app, Hreq.
Qed.


(** X10: on an answered call the announcing line is printed, and the line
    "No upcoming events found." follows it exactly when the value handed
    back is false as a Python object (no "items" entry, an empty list,
    null). *)
Theorem no_events_line_iff_result_is_falsy cid st et mr w c w1 answer :
  credentials cp tp sdk w = (Returns c, w1) ->
  build_error sdk "calendar" "v3" c = None ->
  execute_outcome sdk
    {| service_name := "calendar"; service_version := "v3";
       service_credentials := c |}
    (list_request cid (resolved_start st (clock w)) (resolve_end et) mr)
    = Returns answer ->
  let out := get_events cp tp sdk cid st et mr w in
  let events := dict_get answer "items" (PyList []) in
  stdout out.2 =
    stdout w ++ "Getting the upcoming 10 events" ::
      (if truthy events then [] else ["No upcoming events found."]).
Proof.
  intros Hc Hbuild Hexec. cbv zeta. rewrite get_events_eq, Hc.
  apply credentials_frame in Hc as [-> <-].
  rewrite query_eq, Hbuild. cbv zeta. rewrite Hexec. simpl.
  destruct (truthy _); simpl; [done|]. by rewrite <- app_assoc.
Qed.

(** X11: neither function retries: whatever the outcome, a call of
    [get_events] and a call of [get_todays_events] issue at most one list
    request. *)
Theorem at_most_one_request_per_call cid st et mr w :
  (length (issued w (get_events cp tp sdk cid st et mr w).2) <= 1)%nat /\
  (length (issued w (get_todays_events cp tp sdk cid mr w).2) <= 1)%nat.
Proof.
  split.
  - destruct (get_events_issued cp tp sdk cid st et mr w) as [H|H];
      cbv zeta in H; rewrite H; simpl; lia.
  - rewrite get_todays_events_eq. cbv zeta.
    match goal with |- context [get_events _ _ _ _ ?s ?e _ (emit ?l w)] =>
      change (issued w) with (issued (emit l w));
      destruct (get_events_issued cp tp sdk cid s e mr (emit l w)) as [H|H];
      cbv zeta in H; rewrite H; simpl; lia
    end.
Qed.

(** X12: an empty string as a bound counts as no bound: the call behaves
    exactly as the call without it. *)
Theorem empty_bounds_count_as_missing cid st et mr w :
  get_events cp tp sdk cid (Some "") et mr w = get_events cp tp sdk cid None et mr w /\
  get_events cp tp sdk cid st (Some "") mr w = get_events cp tp sdk cid st None mr w.
Proof. by rewrite !get_events_eq. Qed.

(** X13: a value other than [None] comes back only from an answered list
    call: the credentials were there, the service was built, the remote
    service answered the one request of the call, and the value is the
    "items" entry of the answer, or the empty list when there is none. *)
Theorem result_other_than_None_is_an_answer cid st et mr w v :
  (get_events cp tp sdk cid st et mr w).1 = Returns v ->
  v <> PyNone ->
  exists c w1 answer,
    credentials cp tp sdk w = (Returns c, w1) /\
    build_error sdk "calendar" "v3" c = None /\
    execute_outcome sdk
      {| service_name := "calendar"; service_version := "v3";
         service_credentials := c |}
      (list_request cid (resolved_start st (clock w)) (resolve_end et) mr)
      = Returns answer /\
    v = dict_get answer "items" (PyList []) /\
    issued w (get_events cp tp sdk cid st et mr w).2 =
      [list_request cid (resolved_start st (clock w)) (resolve_end et) mr].
Proof.
  intros Hres Hv.
  destruct (credentials cp tp sdk w) as [[c|e] w1] eqn:Hc.
  - pose proof (get_events_built cp tp sdk cid st et mr w c w1 Hc) as Hbuilt.
    rewrite get_events_eq, Hc in Hres.
    pose proof Hc as [Hclock _]%credentials_frame. rewrite Hclock in Hres.
    rewrite query_eq in Hres. cbv zeta in Hres.
    destruct (build_error sdk "calendar" "v3" c) as [[]|] eqn:Hbuild;
      simpl in Hres; simplify_eq.
    destruct (execute_outcome sdk _ _) as [answer|[]] eqn:Hexec;
      simpl in Hres; simplify_eq.
    exists c, w1, answer. by rewrite Hbuilt.
  - by rewrite (get_events_without_credentials cp tp sdk cid st et mr w e w1 Hc)
      in Hres.
Qed.

End Query_outcomes.

(** * Further properties of the time stamps *)

Lemma strftime_nonempty t : strftime DATETIME_FMT t <> "".
Proof.
  rewrite strftime_DATETIME_FMT. unfold iso_date.
  rewrite zpad_succ, !append_assoc_string. by destruct (zpad 3 _).
Qed.

Lemma datetime_compare_eq a b :
  datetime_compare a b = Eq ->
  year a = year b /\ month a = month b /\ day a = day b /\
  hour a = hour b /\ minute a = minute b /\ second a = second b.
Proof.
  unfold datetime_compare. intros H.
  repeat match type of H with
         | context [Z.compare ?x ?y] =>
             destruct (Z.compare_spec x y); try done
         end.
Qed.

(** X14: on time stamps rendered with [DATETIME_FMT] the string order,
    which is all the remote query sees, is the chronological order of the
    instants, for instants from the year 1000 on. *)
Theorem rendered_order_is_chronological a b :
  datetime_ok a -> datetime_ok b ->
  1000 <= year a -> 1000 <= year b ->
  time_le (strftime DATETIME_FMT a) (strftime DATETIME_FMT b) <->
  datetime_compare a b <> Gt.
Proof.
  intros Ha Hb _ _. unfold time_le, String.leb.
  rewrite strftime_compare by done.
  by destruct (datetime_compare a b).
Qed.

(** X15: rendering with [DATETIME_FMT] loses nothing above the
    microsecond: two instants with the same rendering agree on year,
    month, day, hour, minute and second. *)
Theorem rendering_determines_the_second a b :
  datetime_ok a -> datetime_ok b ->
  strftime DATETIME_FMT a = strftime DATETIME_FMT b ->
  year a = year b /\ month a = month b /\ day a = day b /\
  hour a = hour b /\ minute a = minute b /\ second a = second b.
Proof.
  intros Ha Hb Heq. apply datetime_compare_eq.
  rewrite <- strftime_compare, Heq by done. apply compare_refl.
Qed.

Section Today.

Variables cp tp : string.
Variable sdk : SDK.
Implicit Types (w : World).

(** The bounds of a request issued through [get_todays_events]. *)
Lemma todays_request cid mr w req :
  req ∈ issued w (get_todays_events cp tp sdk cid mr w).2 ->
  let today := clock w in
  req = list_request cid
          (date_strftime DATETIME_FMT (date_of today))
          (strftime DATETIME_FMT
             (mk_datetime (year today) (month today) (day today) 23 59 59 0))
          mr.
Proof.
  rewrite get_todays_events_eq. cbv zeta.
  set (s := date_strftime _ _). set (e := strftime _ _).
  assert (s <> "") as Hs%String.eqb_neq by apply strftime_nonempty.
  assert (e <> "") as He%String.eqb_neq by apply strftime_nonempty.
  clearbody s e.
  change (issued w) with (issued (emit e w)). intros Hin.
  destruct (get_events_issued cp tp sdk cid (Some s) (Some e) mr (emit e w))
    as [H|H]; cbv zeta in H; rewrite H in Hin.
  - by apply elem_of_nil in Hin.
  - apply list_elem_of_singleton in Hin as ->.
    unfold resolved_start, resolve_end, str_truthy. by rewrite Hs, He.
Qed.

(** X16: the window of [get_todays_events] contains the instant of the
    call: the reading of the clock, rendered as [get_events] renders it,
    lies between the two bounds of the request. *)
Theorem todays_window_contains_now cid mr w req :
  datetime_ok (clock w) ->
  req ∈ issued w (get_todays_events cp tp sdk cid mr w).2 ->
  time_le (timeMin req) (strftime DATETIME_FMT (clock w)) /\
  time_le (strftime DATETIME_FMT (clock w)) (timeMax req).
Proof.
  intros Hok Hin. apply todays_request in Hin as ->.
  cbv zeta. unfold list_request. cbn [timeMin timeMax].
  destruct Hok as (Hy & Hm & Hd & HH & HM & HS & Hus).
  unfold date_strftime, date_of, time_le, String.leb.
  cbn [d_year d_month d_day].
  rewrite !strftime_compare
    by (unfold datetime_ok;
        cbn [year month day hour minute second microsecond]; lia).
  unfold datetime_compare.
  cbn [year month day hour minute second]. rewrite !Z.compare_refl.
  split;
    repeat match goal with
           | |- context [Z.compare ?x ?y] =>
               destruct (Z.compare_spec x y); try done; try lia
           end.
Qed.

(** X17: [get_todays_events] prints its upper bound before anything else
    happens, whatever becomes of the query afterwards. *)
Theorem todays_upper_bound_is_printed_first cid mr w :
  let today := clock w in
  let end_time :=
    strftime DATETIME_FMT
      (mk_datetime (year today) (month today) (day today) 23 59 59 0) in
  exists later,
    stdout (get_todays_events cp tp sdk cid mr w).2 =
      stdout w ++ end_time :: later.
Proof.
  cbv zeta. rewrite get_todays_events_eq. cbv zeta.
  set (s := date_strftime _ _). set (e := strftime _ _). clearbody s e.
  rewrite get_events_eq.
  destruct (credentials cp tp sdk (emit e w)) as [[c|err] w1] eqn:Hc;
    apply credentials_frame in Hc as [Hclock Hout].
  - rewrite query_eq. cbv zeta.
    repeat case_match; simpl; rewrite Hout; simpl;
      rewrite <- ?app_assoc; simpl; by eexists.
  - simpl. rewrite Hout. simpl. by exists [].
Qed.

End Today.

(** * The program *)

Section Listing.

Variable repr : pyval -> string.

(** The loop body touches nothing but the output. *)
Lemma print_lines_frame l w :
  let w' := (print_lines repr l w).2 in
  fs w' = fs w /\ clock w' = clock w /\ trace w' = trace w.
Proof.
  revert w. induction l as [|ev l IH]; intros w; simpl; [done|].
  destruct (event_line repr ev) as [f|line]; simpl; [done|].
  destruct (IH (emit line w)) as (-> & -> & ->). done.
Qed.

Lemma print_events_frame v w :
  let w' := (print_events repr v w).2 in
  fs w' = fs w /\ clock w' = clock w /\ trace w' = trace w.
Proof.
  unfold print_events. destruct (py_iter v); [apply print_lines_frame|done].
Qed.

(** Events that all have a line are printed one after the other, and the
    loop goes on with what follows them. *)
Lemma print_lines_good good lines tail w :
  Forall2 (fun ev line => event_line repr ev = inr line) good lines ->
  exists w', print_lines repr (good ++ tail) w = print_lines repr tail w' /\
    stdout w' = stdout w ++ lines /\
    fs w' = fs w /\ clock w' = clock w /\ trace w' = trace w.
Proof.
  intros Hgood. revert w.
  induction Hgood as [|ev line good lines Hline _ IH]; intros w.
  - exists w. by rewrite app_nil_r.
  - simpl. rewrite Hline.
    destruct (IH (emit line w)) as (w' & -> & Hout & Hfs & Hclock & Htrace).
    exists w'. split; [done|]. rewrite Hout. simpl.
    by rewrite <- app_assoc.
Qed.

(** X18: the listing prints the events in order, one line each, until the
    first event that has no line: that event's error ends the loop, the
    lines of the events before it have been printed and nothing of the
    events after it is. *)
Theorem listing_stops_at_first_bad_event good lines w :
  Forall2 (fun ev line => event_line repr ev = inr line) good lines ->
  ((print_events repr (PyList good) w).1 = None /\
   stdout (print_events repr (PyList good) w).2 = stdout w ++ lines) /\
  (forall bad rest f,
      event_line repr bad = inl f ->
      (print_events repr (PyList (good ++ bad :: rest)) w).1 = Some f /\
      stdout (print_events repr (PyList (good ++ bad :: rest)) w).2 =
        stdout w ++ lines).
Proof.
  intros Hgood. unfold print_events. simpl. split.
  - destruct (print_lines_good good lines [] w Hgood) as (w' & Heq & Hout & _).
    rewrite app_nil_r in Heq. by rewrite Heq.
  - intros bad rest f Hbad.
    destruct (print_lines_good good lines (bad :: rest) w Hgood)
      as (w' & -> & Hout & _).
    simpl. by rewrite Hbad.
Qed.

(** X19: the line of an event that is a dict with a dict under "start" and
    an entry "summary" shows the "dateTime" of the start when there is
    one, else its "date" (an all-day event), else None, then a blank and
    the summary. *)
Theorem event_line_prefers_dateTime d start_dict summary :
  dict_lookup d "start" = Some (PyDict start_dict) ->
  dict_lookup d "summary" = Some summary ->
  event_line repr (PyDict d) =
    inr (py_str repr
           match dict_lookup start_dict "dateTime", dict_lookup start_dict "date" with
           | Some date_time, _ => date_time
           | None, Some date => date
           | None, None => PyNone
           end +:+ " " +:+ py_str repr summary).
Proof.
  intros Hstart Hsummary. unfold event_line, subscript.
  rewrite Hstart, Hsummary.
  by destruct (dict_lookup start_dict "dateTime"), (dict_lookup start_dict "date").
Qed.

(** X20: an event without line: what is not a dict raises [TypeError]; a
    dict without "start" raises [KeyError] for "start"; a "start" that is
    not a dict raises [AttributeError]; and with a proper start, a missing
    "summary" raises [KeyError] for "summary". *)
Theorem event_line_errors ev :
  (forall d, ev <> PyDict d) /\ event_line repr ev = inl TypeError \/
  exists d, ev = PyDict d /\
    match dict_lookup d "start" with
    | None => event_line repr ev = inl (KeyError "start")
    | Some (PyDict _) =>
        match dict_lookup d "summary" with
        | None => event_line repr ev = inl (KeyError "summary")
        | Some _ => exists line, event_line repr ev = inr line
        end
    | Some _ => event_line repr ev = inl AttributeError
    end.
Proof.
  destruct ev as [| | | | |d]; try (by left).
  right. exists d. split; [done|]. unfold event_line, subscript.
  destruct (dict_lookup d "start") as [[]|]; try done.
  destruct (dict_lookup d "summary"); [by eexists|done].
Qed.

End Listing.

Section Entry_block.

Variable sdk : SDK.
Variable repr : pyval -> string.
Variables cp tp : string.
Implicit Types (w : World) (c : Credentials).

(** A call that loads a valid token and gets an answer, with the world it
    leaves. *)
Lemma get_events_with_valid_token cid st et mr w content c answer :
  fs w !! tp = Some content ->
  parse_authorized_user sdk content SCOPES = Returns c ->
  valid c = true ->
  build_error sdk "calendar" "v3" c = None ->
  execute_outcome sdk
    {| service_name := "calendar"; service_version := "v3";
       service_credentials := c |}
    (list_request cid (resolved_start st (clock w)) (resolve_end et) mr)
    = Returns answer ->
  exists w',
    get_events cp tp sdk cid st et mr w =
      (Returns (dict_get answer "items" (PyList [])), w') /\
    fs w' = fs w /\ clock w' = clock w /\
    trace w' =
      trace w ++ [ReadFile tp;
                  ListEvents (list_request cid (resolved_start st (clock w))
                                (resolve_end et) mr)] /\
    stdout w' =
      stdout w ++ "Getting the upcoming 10 events" ::
        (if truthy (dict_get answer "items" (PyList [])) then []
         else ["No upcoming events found."]).
Proof.
  intros Hfile Hparse Hvalid Hbuild Hexec.
  rewrite get_events_eq, credentials_eq, Hfile. cbv zeta.
  rewrite Hparse, Hvalid, query_eq, Hbuild. cbv zeta. simpl clock.
  rewrite Hexec. eexists. split; [done|].
  destruct (truthy _); simpl; rewrite <- ?app_assoc; done.
Qed.

(** X21: when the first query meets an [HttpError], the program ends in a
    [TypeError]: [get_events] has handed back [None], the heading of the
    first listing is still printed, and the loop over [None] fails.  The
    second query is never made. *)
Theorem http_error_in_first_query_ends_the_program w c w1 text :
  credentials cp tp sdk w = (Returns c, w1) ->
  build_error sdk "calendar" "v3" c = None ->
  execute_outcome sdk
    {| service_name := "calendar"; service_version := "v3";
       service_credentials := c |}
    (list_request "primary" (strftime DATETIME_FMT (clock w))
       "2038-12-31T23:59:59Z" 10)
    = Raises (HttpError text) ->
  let out := main_block sdk repr cp tp w in
  out.1 = Some TypeError /\
  stdout out.2 =
    stdout w ++ ["Getting the upcoming 10 events";
                 "An error occurred: " +:+ text;
                 "upcoming primary events:"] /\
  issued w out.2 =
    [list_request "primary" (strftime DATETIME_FMT (clock w))
       "2038-12-31T23:59:59Z" 10].
Proof.
  intros Hc Hbuild Hexec. cbv zeta. unfold main_block.
  pose proof (http_error_is_printed_and_None_returned cp tp sdk
                "primary" None None 10 w c w1 text Hc Hbuild Hexec) as [Hres Hout].
  pose proof (get_events_built cp tp sdk "primary" None None 10 w c w1 Hc Hbuild)
    as Hreq.
  destruct (get_events cp tp sdk "primary" None None 10 w) as [r w2].
  simpl in *. subst r. simpl. rewrite Hout, <- app_assoc. done.
Qed.

(** X22: with a valid persisted token and two answered queries whose
    events all have a line, the program ends normally.  It has made two
    list requests, the first from now to the far-future bound, the second
    over today, and it has printed, in this order: the announcement, the
    heading and the lines of the first listing, then the upper bound of
    today, the announcement, the heading and the lines of the second
    listing.  No file has changed. *)
Theorem program_lists_upcoming_then_today w content c answer1 l1 lines1
    answer2 l2 lines2 :
  let today := clock w in
  let req1 :=
    list_request "primary" (strftime DATETIME_FMT today) "2038-12-31T23:59:59Z" 10 in
  let end_time :=
    strftime DATETIME_FMT
      (mk_datetime (year today) (month today) (day today) 23 59 59 0) in
  let req2 :=
    list_request "primary" (date_strftime DATETIME_FMT (date_of today)) end_time 10 in
  let service :=
    {| service_name := "calendar"; service_version := "v3";
       service_credentials := c |} in
  fs w !! tp = Some content ->
  parse_authorized_user sdk content SCOPES = Returns c ->
  valid c = true ->
  build_error sdk "calendar" "v3" c = None ->
  execute_outcome sdk service req1 = Returns answer1 ->
  answer1 !! "items" = Some (PyList l1) ->
  Forall2 (fun ev line => event_line repr ev = inr line) l1 lines1 ->
  execute_outcome sdk service req2 = Returns answer2 ->
  answer2 !! "items" = Some (PyList l2) ->
  Forall2 (fun ev line => event_line repr ev = inr line) l2 lines2 ->
  let out := main_block sdk repr cp tp w in
  out.1 = None /\
  issued w out.2 = [req1; req2] /\
  fs out.2 = fs w /\
  stdout out.2 =
    stdout w
    ++ "Getting the upcoming 10 events"
       :: (if l1 is [] then ["No upcoming events found."] else [])
    ++ "upcoming primary events:" :: lines1
    ++ end_time :: "Getting the upcoming 10 events"
       :: (if l2 is [] then ["No upcoming events found."] else [])
    ++ "upcoming today's primary events:" :: lines2.
Proof.
  intros today req1 end_time req2 service
    Hfile Hparse Hvalid Hbuild Hexec1 Hitems1 Hlines1 Hexec2 Hitems2 Hlines2.
  cbv zeta. unfold main_block.
  set (start_time := date_strftime DATETIME_FMT (date_of today)) in *.
  assert (start_time <> "") as Hs%String.eqb_neq by apply strftime_nonempty.
  assert (end_time <> "") as He%String.eqb_neq by apply strftime_nonempty.
  assert (resolved_start (Some start_time) today = start_time) as Hstart.
  { unfold resolved_start. by rewrite Hs. }
  assert (resolve_end (Some end_time) = end_time) as Hend.
  { unfold resolve_end, str_truthy. by rewrite He. }
  subst req1 req2 service.
  destruct (get_events_with_valid_token "primary" None None 10 w content c answer1
              Hfile Hparse Hvalid Hbuild Hexec1)
    as (w1 & -> & Hfs1 & Hclock1 & Htrace1 & Hout1).
  unfold dict_get in *. rewrite Hitems1 in *. simpl default in *.
  unfold print_events. simpl py_iter.
  destruct (print_lines_good repr l1 lines1 []
              (emit "upcoming primary events:" w1) Hlines1)
    as (w2 & Heq2 & Hout2 & Hfs2 & Hclock2 & Htrace2).
  rewrite app_nil_r in Heq2. rewrite Heq2. simpl print_lines. cbv iota.
  rewrite get_todays_events_eq. cbv zeta.
  simpl in Hfs2, Hclock2, Htrace2, Hout2.
  assert (clock w2 = today) as Hclock by (unfold today; congruence).
  rewrite Hclock. fold end_time. fold start_time.
  clearbody start_time end_time.
  destruct (get_events_with_valid_token "primary"
              (Some start_time) (Some end_time) 10 (emit end_time w2)
              content c answer2)
    as (w3 & -> & Hfs3 & Hclock3 & Htrace3 & Hout3); try done.
  { simpl. congruence. }
  { simpl clock. by rewrite Hclock, Hstart, Hend. }
  unfold dict_get in *. rewrite Hitems2 in *. simpl default in *.
  simpl py_iter.
  destruct (print_lines_good repr l2 lines2 []
              (emit "upcoming today's primary events:" w3) Hlines2)
    as (w4 & Heq4 & Hout4 & Hfs4 & Hclock4 & Htrace4).
  rewrite app_nil_r in Heq4. rewrite Heq4. simpl.
  simpl clock in Htrace3. rewrite Hclock, Hstart, Hend in Htrace3.
  simpl in Hfs3, Hclock3, Htrace3, Hout3, Hfs4, Htrace4, Hout4.
  split; [done|]. split; [|split].
  - apply issued_app.
    rewrite Htrace4, Htrace3, Htrace2, Htrace1, !requests_app. simpl.
    by rewrite <- app_assoc.
  - congruence.
  - rewrite Hout4, Hout3, Hout2, Hout1. simpl.
    destruct l1, l2; simpl; rewrite <- ?app_assoc; simpl;
      repeat (f_equal; try done; rewrite <- ?app_assoc; simpl).
Qed.

(** X23: the program makes at most two list requests, whatever happens. *)
Theorem program_issues_at_most_two_requests w :
  (length (issued w (main_block sdk repr cp tp w).2) <= 2)%nat.
Proof.
  unfold main_block.
  assert (forall v w0, requests (trace (print_events repr v w0).2)
                       = requests (trace w0)) as Hprint.
  { intros v w0. by destruct (print_events_frame repr v w0) as (_ & _ & ->). }
  assert (forall cid st et mr w0, exists new,
             requests (trace (get_events cp tp sdk cid st et mr w0).2) =
               requests (trace w0) ++ new /\ (length new <= 1)%nat) as Hget.
  { intros cid st et mr w0.
    destruct (get_events_after_credentials cp tp sdk cid st et mr w0)
      as (_ & rest & Htrace & Hrest).
    pose proof (credentials_requests cp tp sdk w0) as Hcreds.
    destruct (get_events_issued cp tp sdk cid st et mr w0) as [H|H];
      cbv zeta in H; unfold issued in H.
    - exists []. split; [|simpl; lia].
      rewrite Htrace, requests_app, Hcreds in *.
      rewrite drop_app_length in H. by rewrite H.
    - eexists [_]. split; [|simpl; lia].
      rewrite Htrace, requests_app, Hcreds in *.
      rewrite drop_app_length in H. by rewrite H. }
  destruct (Hget "primary" None None 10 w) as (new1 & Hreq1 & Hlen1).
  destruct (get_events cp tp sdk "primary" None None 10 w) as [[v1|e1] w1];
    simpl in Hreq1.
  - pose proof (Hprint v1 (emit "upcoming primary events:" w1)) as Hp1.
    destruct (print_events repr v1 (emit "upcoming primary events:" w1))
      as [[f|] w2]; simpl in Hp1.
    + simpl. unfold issued. rewrite Hp1, Hreq1, drop_app_length. lia.
    + rewrite get_todays_events_eq. cbv zeta.
      match goal with |- context [get_events _ _ _ ?a ?s ?e ?m ?w0] =>
        destruct (Hget a s e m w0) as (new2 & Hreq2 & Hlen2);
        destruct (get_events cp tp sdk a s e m w0) as [[v2|e2] w3]
      end; simpl in Hreq2; rewrite Hp1, Hreq1 in Hreq2.
      * pose proof (Hprint v2 (emit "upcoming today's primary events:" w3))
          as Hp2.
        unfold issued. simpl in Hp2. rewrite Hp2, Hreq2, <- app_assoc.
        rewrite drop_app_length, length_app. lia.
      * simpl. unfold issued.
        rewrite Hreq2, <- app_assoc, drop_app_length, length_app. lia.
  - simpl. unfold issued. rewrite Hreq1, drop_app_length. lia.
Qed.

End Entry_block.

Section Module_level.

Variable sdk : SDK.
Variable repr : pyval -> string.
Variable environ : gmap string string.
Implicit Types (w : World) (json_loads : string -> completion pyval).

(** X24: when one of the three environment variables is missing, the
    program ends at once with a [KeyError] that names a missing variable;
    no file has been read, nothing has been printed and no request made. *)
Theorem missing_environment_variable_ends_the_script json_loads w key :
  key ∈ ["GOOGLE_OAUTH2_CREDENTIALS"; "GOOGLE_CALENDAR_TOKEN"; "GOOGLE_CALENDAR_ID"] ->
  environ !! key = None ->
  exists missing,
    environ !! missing = None /\
    script sdk repr json_loads environ w = (Some (KeyError missing), w).
Proof.
  intros Hkey Hnone. unfold script, module_level.
  destruct (environ !! "GOOGLE_OAUTH2_CREDENTIALS") eqn:H1; [|by eexists].
  destruct (environ !! "GOOGLE_CALENDAR_TOKEN") eqn:H2; [|by eexists].
  destruct (environ !! "GOOGLE_CALENDAR_ID") eqn:H3; [|by eexists].
  rewrite !elem_of_cons, elem_of_nil in Hkey.
  destruct Hkey as [->|[->|[->|[]]]]; congruence.
Qed.

(** X25: the calendar-id registry has to be there and has to parse, or the
    program ends before any credential is looked at and before any query:
    a missing file raises [FileNotFoundError] in an untouched world, a
    file that does not parse raises the parser's error after the one
    read. *)
Theorem registry_file_is_required json_loads w cp tp ids_path :
  environ !! "GOOGLE_OAUTH2_CREDENTIALS" = Some cp ->
  environ !! "GOOGLE_CALENDAR_TOKEN" = Some tp ->
  environ !! "GOOGLE_CALENDAR_ID" = Some ids_path ->
  (fs w !! ids_path = None ->
   script sdk repr json_loads environ w =
     (Some (Uncaught (FileNotFoundError ids_path)), w)) /\
  (forall content e,
      fs w !! ids_path = Some content ->
      json_loads content = Raises e ->
      script sdk repr json_loads environ w =
        (Some (Uncaught e), log (ReadFile ids_path) w)).
Proof.
  intros H1 H2 H3. unfold script, module_level, read_file.
  rewrite H1, H2, H3. split.
  - by intros ->.
  - intros content e -> Hparse. by rewrite Hparse.
Qed.

(** X26: what the registry holds is never used: once it has parsed, the
    program is the entry block run on the two paths of the environment
    after the one read of the registry file, whatever the parser made of
    its content. *)
Theorem registry_content_is_never_used json_loads json_loads' w cp tp ids_path
    content ids ids' :
  environ !! "GOOGLE_OAUTH2_CREDENTIALS" = Some cp ->
  environ !! "GOOGLE_CALENDAR_TOKEN" = Some tp ->
  environ !! "GOOGLE_CALENDAR_ID" = Some ids_path ->
  fs w !! ids_path = Some content ->
  json_loads content = Returns ids ->
  json_loads' content = Returns ids' ->
  script sdk repr json_loads environ w = script sdk repr json_loads' environ w /\
  script sdk repr json_loads environ w =
    main_block sdk repr cp tp (log (ReadFile ids_path) w).
Proof.
  intros H1 H2 H3 Hfile Hparse Hparse'. unfold script, module_level, read_file.
  by rewrite H1, H2, H3, Hfile, Hparse, Hparse'.
Qed.

End Module_level.

(** * The further properties at concrete inputs *)

Section More_runs.

Import Scenario.

Let sp := secret_path.
Let tk := token_path.

Lemma unparseable_token_file_witness :
  let sdk := sdk_with (Returns fresh) (Returns answer_items) in
  let w := world_with (Some "garbage") in
  let out := get_events sp tk sdk "primary" None None 10 w in
  out.1 = Raises (ValueError "not an authorized user file") /\
  trace out.2 = [ReadFile token_path].
Proof.
  intros sdk w out.
  destruct (unparseable_token_file_is_fatal sp tk sdk "primary" None None 10 w
              "garbage" (ValueError "not an authorized user file"))
    as (Hres & _ & Htrace & _); [vm_compute; reflexivity ..|].
  split; [exact Hres | exact Htrace].
Defined.

Lemma unrefreshable_token_witness :
  let sdk := Fixture.sdk_of (Returns Fixture.blank) (Returns fresh) None
               (Returns answer_items) in
  let w := world_with (Some "half") in
  fs (get_events sp tk sdk "primary" None None 10 w).2 !! token_path
    = Some "fresh".
Proof.
  intros sdk w.
  destruct (unrefreshable_token_runs_login sp tk sdk "primary" None None 10 w
              "half" Fixture.blank "{}"
              {| client_config := "{}"; flow_scopes := SCOPES |} fresh)
    as (_ & Hfile & _); [vm_compute; reflexivity ..|].
  exact Hfile.
Defined.

Lemma missing_client_secret_witness :
  let sdk := sdk_with (Returns fresh) (Returns answer_items) in
  let w := {| fs := ∅; clock := noon; stdout := []; trace := [] |} in
  get_events sp tk sdk "primary" None None 10 w
    = (Raises (FileNotFoundError secret_path), w).
Proof.
  intros sdk w.
  apply (missing_client_secret_is_fatal sp tk sdk "primary" None None 10 w);
    vm_compute; reflexivity.
Defined.

Lemma failed_login_witness :
  let sdk := Fixture.sdk_of (Returns fresh) (Raises (FlowError "access_denied"))
               None (Returns answer_items) in
  let w := world_with None in
  let out := get_events sp tk sdk "primary" None None 10 w in
  out.1 = Raises (FlowError "access_denied") /\
  trace out.2 = [ReadFile secret_path; LocalServerFlow].
Proof.
  intros sdk w out.
  destruct (failed_login_is_fatal sp tk sdk "primary" None None 10 w "{}"
              {| client_config := "{}"; flow_scopes := SCOPES |}
              (FlowError "access_denied"))
    as (Hres & _ & Htrace); [vm_compute; reflexivity ..|].
  split; [exact Hres | exact Htrace].
Defined.

Lemma other_files_witness :
  let sdk := sdk_with (Returns fresh) (Returns answer_items) in
  let w := world_with (Some "stale") in
  fs (get_events sp tk sdk "primary" None None 10 w).2 !! secret_path
    = fs w !! secret_path.
Proof.
  intros sdk w.
  apply (other_files_are_untouched sp tk sdk "primary" None None 10 w secret_path).
  discriminate.
Defined.

Lemma next_call_witness :
  let sdk := sdk_with (Returns fresh) (Returns answer_items) in
  let w := world_with (Some "stale") in
  let w' := (get_events sp tk sdk "primary" None None 10 w).2 in
  let w'' := (get_todays_events sp tk sdk "primary" 10 w').2 in
  occurrences RefreshToken (trace w') = 1%nat /\
  fs (get_events sp tk sdk "team" None None 5 w').2 = fs w'.
Proof.
  intros sdk w w' w''. split; [vm_compute; reflexivity|].
  destruct (next_call_reuses_the_token sp tk sdk
              "primary" None None 10 "team" None None 5 w
              fresh (credentials sp tk sdk w).2)
    as (_ & Hfs & _); [vm_compute; reflexivity ..|].
  exact Hfs.
Defined.

Lemma http_error_of_build_witness :
  let sdk := Fixture.sdk_of (Returns fresh) (Returns fresh)
               (Some (HttpError "503 discovery")) (Returns answer_items) in
  let w := world_with (Some "fresh") in
  let out := get_events sp tk sdk "primary" None None 10 w in
  out.1 = Returns PyNone /\ issued w out.2 = [] /\
  stdout out.2 = ["An error occurred: 503 discovery"].
Proof.
  intros sdk w out.
  apply (http_error_of_build_is_swallowed sp tk sdk "primary" None None 10 w
           fresh (credentials sp tk sdk w).2 "503 discovery");
    vm_compute; reflexivity.
Defined.

Lemma other_error_witness :
  let sdk := sdk_with (Returns fresh) (Raises (TransportError "timed out")) in
  let w := world_with (Some "fresh") in
  let out := get_events sp tk sdk "primary" None None 10 w in
  out.1 = Raises (TransportError "timed out") /\
  stdout out.2 = ["Getting the upcoming 10 events"].
Proof.
  intros sdk w out.
  destruct (other_error_of_list_call_is_not_handled sp tk sdk
              "primary" None None 10 w fresh (credentials sp tk sdk w).2
              (TransportError "timed out"))
    as (Hres & _ & Hout); [vm_compute; reflexivity ..|discriminate|].
  split; [exact Hres | exact Hout].
Defined.


Lemma no_events_line_witness :
  let sdk := sdk_with (Returns fresh) (Returns answer_bare) in
  let w := world_with (Some "fresh") in
  stdout (get_events sp tk sdk "primary" None None 10 w).2 =
    ["Getting the upcoming 10 events"; "No upcoming events found."].
Proof.
  intros sdk w.
  apply (no_events_line_iff_result_is_falsy sp tk sdk "primary" None None 10 w
           fresh (credentials sp tk sdk w).2 answer_bare);
    vm_compute; reflexivity.
Defined.

Lemma result_other_than_None_witness :
  let sdk := sdk_with (Returns fresh) (Returns answer_items) in
  let w := world_with (Some "fresh") in
  exists c w1 answer,
    credentials sp tk sdk w = (Returns c, w1) /\
    build_error sdk "calendar" "v3" c = None /\
    execute_outcome sdk
      {| service_name := "calendar"; service_version := "v3";
         service_credentials := c |}
      (list_request "primary" (resolved_start None (clock w)) (resolve_end None) 10)
      = Returns answer /\
    PyList [meeting] = dict_get answer "items" (PyList []) /\
    issued w (get_events sp tk sdk "primary" None None 10 w).2 =
      [list_request "primary" (resolved_start None (clock w)) (resolve_end None) 10].
Proof.
  intros sdk w.
  apply (result_other_than_None_is_an_answer sp tk sdk "primary" None None 10 w
           (PyList [meeting])); [vm_compute; reflexivity|discriminate].
Defined.

Lemma rendered_order_witness :
  time_le (strftime DATETIME_FMT noon)
          (strftime DATETIME_FMT (mk_datetime 2024 6 15 23 59 59 0)).
Proof.
  apply (rendered_order_is_chronological noon (mk_datetime 2024 6 15 23 59 59 0));
    [unfold datetime_ok; simpl; lia | unfold datetime_ok; simpl; lia
    |simpl; lia | simpl; lia | vm_compute; discriminate].
Defined.

Lemma rendering_witness :
  hour noon = hour (mk_datetime 2024 6 15 12 30 45 999) /\
  second noon = second (mk_datetime 2024 6 15 12 30 45 999).
Proof.
  destruct (rendering_determines_the_second noon
              (mk_datetime 2024 6 15 12 30 45 999))
    as (_ & _ & _ & Hh & _ & Hs);
    [unfold datetime_ok; simpl; lia ..|vm_compute; reflexivity|].
  split; [exact Hh | exact Hs].
Defined.

Lemma todays_window_contains_now_witness :
  time_le "2024-06-15T00:00:00Z" (strftime DATETIME_FMT noon) /\
  time_le (strftime DATETIME_FMT noon) "2024-06-15T23:59:59Z".
Proof.
  pose (sdk := sdk_with (Returns fresh) (Returns answer_items)).
  apply (todays_window_contains_now sp tk sdk "primary" 10
           (world_with (Some "fresh"))
           (list_request "primary" "2024-06-15T00:00:00Z" "2024-06-15T23:59:59Z" 10)).
  - unfold datetime_ok. simpl. lia.
  - vm_compute. by apply list_elem_of_singleton.
Defined.

End More_runs.

Section Program_runs.

Import Scenario.

Let sp := secret_path.
Let tk := token_path.

Lemma listing_witness :
  let w := world_with None in
  stdout (print_events Fixture.repr (PyList [meeting; Fixture.holiday]) w).2 =
    ["2024-06-15T09:00:00Z stand-up"; "2024-06-17 public holiday"] /\
  (print_events Fixture.repr
     (PyList [meeting; Fixture.holiday; Fixture.untitled; meeting]) w).1 =
    Some (KeyError "summary") /\
  stdout (print_events Fixture.repr
            (PyList [meeting; Fixture.holiday; Fixture.untitled; meeting]) w).2 =
    ["2024-06-15T09:00:00Z stand-up"; "2024-06-17 public holiday"].
Proof.
  intros w.
  destruct (listing_stops_at_first_bad_event Fixture.repr
              [meeting; Fixture.holiday]
              ["2024-06-15T09:00:00Z stand-up"; "2024-06-17 public holiday"] w)
    as [[_ Hgood] Hbad].
  { repeat constructor. }
  destruct (Hbad Fixture.untitled [meeting] (KeyError "summary") eq_refl)
    as [Hres Hout].
  split; [exact Hgood|]. split; [exact Hres | exact Hout].
Defined.

Lemma event_line_witness :
  event_line Fixture.repr Fixture.holiday = inr "2024-06-17 public holiday".
Proof.
  apply (event_line_prefers_dateTime Fixture.repr
           [("summary", PyStr "public holiday");
            ("start", PyDict [("date", PyStr "2024-06-17")])]
           [("date", PyStr "2024-06-17")] (PyStr "public holiday"));
    reflexivity.
Defined.

Lemma http_error_in_first_query_witness :
  let sdk := sdk_with (Returns fresh) (Raises (HttpError "404 Not Found")) in
  let w := world_with (Some "fresh") in
  let out := main_block sdk Fixture.repr sp tk w in
  out.1 = Some TypeError /\
  stdout out.2 =
    ["Getting the upcoming 10 events"; "An error occurred: 404 Not Found";
     "upcoming primary events:"] /\
  length (issued w out.2) = 1%nat.
Proof.
  intros sdk w out.
  destruct (http_error_in_first_query_ends_the_program sdk Fixture.repr sp tk w
              fresh (credentials sp tk sdk w).2 "404 Not Found")
    as (Hres & Hout & Hreq); [vm_compute; reflexivity ..|].
  split; [exact Hres|]. split; [exact Hout|].
  fold out in Hreq. by rewrite Hreq.
Defined.

Lemma program_witness :
  let sdk := sdk_with (Returns fresh) (Returns Fixture.answer_two) in
  let w := world_with (Some "fresh") in
  let out := main_block sdk Fixture.repr sp tk w in
  out.1 = None /\
  stdout out.2 =
    ["Getting the upcoming 10 events";
     "upcoming primary events:";
     "2024-06-15T09:00:00Z stand-up"; "2024-06-17 public holiday";
     "2024-06-15T23:59:59Z";
     "Getting the upcoming 10 events";
     "upcoming today's primary events:";
     "2024-06-15T09:00:00Z stand-up"; "2024-06-17 public holiday"].
Proof.
  intros sdk w out.
  destruct (program_lists_upcoming_then_today sdk Fixture.repr sp tk w
              "fresh" fresh
              Fixture.answer_two [meeting; Fixture.holiday]
              ["2024-06-15T09:00:00Z stand-up"; "2024-06-17 public holiday"]
              Fixture.answer_two [meeting; Fixture.holiday]
              ["2024-06-15T09:00:00Z stand-up"; "2024-06-17 public holiday"])
    as (Hres & _ & _ & Hout);
    [vm_compute; reflexivity | vm_compute; reflexivity | vm_compute; reflexivity
    |vm_compute; reflexivity | vm_compute; reflexivity | vm_compute; reflexivity
    |repeat constructor
    |vm_compute; reflexivity | vm_compute; reflexivity
    |repeat constructor|].
  split; [exact Hres | exact Hout].
Defined.

Lemma missing_environment_variable_witness :
  let sdk := sdk_with (Returns fresh) (Returns answer_items) in
  let environ : gmap string string :=
    {[ "GOOGLE_OAUTH2_CREDENTIALS" := secret_path ]} in
  let w := Fixture.world (Some "{}") in
  exists missing,
    environ !! missing = None /\
    script sdk Fixture.repr Fixture.json_loads environ w
      = (Some (KeyError missing), w).
Proof.
  intros sdk environ w.
  apply (missing_environment_variable_ends_the_script sdk Fixture.repr environ
           Fixture.json_loads w "GOOGLE_CALENDAR_ID").
  - right. right. left.
  - vm_compute. reflexivity.
Defined.

Lemma registry_file_witness :
  let sdk := sdk_with (Returns fresh) (Returns answer_items) in
  script sdk Fixture.repr Fixture.json_loads Fixture.environ (Fixture.world None)
    = (Some (Uncaught (FileNotFoundError "/home/user/calendars.json")),
       Fixture.world None) /\
  (script sdk Fixture.repr Fixture.json_loads Fixture.environ
     (Fixture.world (Some "not json"))).1
    = Some (Uncaught (ValueError "Expecting value")).
Proof.
  intros sdk. split.
  - destruct (registry_file_is_required sdk Fixture.repr Fixture.environ
                Fixture.json_loads (Fixture.world None)
                secret_path token_path "/home/user/calendars.json")
      as [H _]; [vm_compute; reflexivity ..|].
    apply H. vm_compute. reflexivity.
  - destruct (registry_file_is_required sdk Fixture.repr Fixture.environ
                Fixture.json_loads (Fixture.world (Some "not json"))
                secret_path token_path "/home/user/calendars.json")
      as [_ H]; [vm_compute; reflexivity ..|].
    rewrite (H "not json" (ValueError "Expecting value"));
      [reflexivity|vm_compute; reflexivity|reflexivity].
Defined.

Lemma registry_content_witness :
  let sdk := sdk_with (Returns fresh) (Returns Fixture.answer_two) in
  let w := Fixture.world (Some "{work}") in
  script sdk Fixture.repr Fixture.json_loads Fixture.environ w =
  script sdk Fixture.repr (fun _ => Returns PyNone) Fixture.environ w.
Proof.
  intros sdk w.
  destruct (registry_content_is_never_used sdk Fixture.repr Fixture.environ
              Fixture.json_loads (fun _ => Returns PyNone) w
              secret_path token_path "/home/user/calendars.json" "{work}"
              (PyDict [("work", PyStr "work@group.calendar.google.com")]) PyNone)
    as [H _]; [vm_compute; reflexivity ..|].
  exact H.
Defined.

End Program_runs.
